(** * ai-consultant: retrieval-then-prompt flow

    A shallow embedding of [rag_system.py] (class [ConsultingRAG]) and of the
    request handler of [app.py], together with the properties that the
    design document states about them.

    Python [str] values are represented by their UTF-8 encoding as Rocq
    [string]s, so that equality of strings is byte equality.  Everything the
    program obtains from outside the repository (the embedding model, the
    vector store's metric, the text decoder, the text splitter and the
    generation service) is gathered in the class [External]. *)

From Stdlib Require Import String Ascii List ZArith Lia Bool Arith.
From Stdlib Require Import Sorted Permutation.
Import ListNotations.
Open Scope string_scope.

(** ** Exceptions *)

(** [ValueError] is raised by [rag_system.py] itself, [IndexError] by the
    subscript [response.content[0]] of [app.py].  The other constructors are
    the failures of the external loader, store and generation client, under
    the names the design document gives them. *)
Inductive exn : Type :=
| ValueError (msg : string)
| IndexError
| LoadError
| EncodingError
| NotFoundError
| ServiceError (detail : string).

(** The "not ready" failure of the design document is the [ValueError] of
    [get_relevant_frameworks]. *)
Definition NotReadyError : exn := ValueError "Vector database not initialized.".

(** ** Data model *)

(** A langchain [Document]: its text and the [source] entry of its metadata. *)
Record Document : Type := mkDocument {
  page_content : string;
  source : string
}.

(** A file of the input directory: its path and its raw bytes. *)
Definition File : Type := (string * list Byte.byte)%type.

(** The arguments of [anthropic.messages.create]: one user message. *)
Record Request : Type := mkRequest {
  model : string;
  max_tokens : Z;
  messages : list (string * string)   (* (role, content) *)
}.

(** The part of the response the handler reads: [response.content[i].text]. *)
Record Message : Type := mkMessage {
  content : list string
}.

(** Observable interactions with the outside world, in program order. *)
Inductive Event : Type :=
| EvLoadDirectory (path : string)            (* DirectoryLoader.load *)
| EvEmbedDocuments (texts : list string)     (* embeddings of the chunks *)
| EvPersist (directory : string)             (* index written to disk *)
| EvOpen (directory : string)                (* index reopened from disk *)
| EvSimilaritySearch (query : string) (k : nat)
| EvMessagesCreate (req : Request)           (* call to the generation service *)
| EvStError (msg : string)                   (* st.error *)
| EvStMarkdown (body : string).              (* st.markdown *)

Definition is_search (ev : Event) : bool :=
  match ev with
  | EvSimilaritySearch _ _ => true
  | _ => false
  end.

Definition is_generation (ev : Event) : bool :=
  match ev with
  | EvMessagesCreate _ => true
  | _ => false
  end.

(** ** External capabilities *)

Class External : Type := {
  (** the embedding vectors of [HuggingFaceEmbeddings] *)
  Vector : Type;
  embed : string -> Vector;
  (** the store's metric; smaller is nearer *)
  distance : Vector -> Vector -> Z;
  (** strict UTF-8 decoding of a file's bytes, [None] when it fails *)
  decode_utf8 : list Byte.byte -> option string;
  (** [RecursiveCharacterTextSplitter(chunk_size, chunk_overlap).split_text] *)
  split_text : nat -> nat -> string -> list string;
  (** the generation service: its answer may depend on what happened before *)
  messages_create : list Event -> Request -> exn + Message;
  (** the message of the [ValueError] with which the vector store refuses
      to add an empty list of chunks *)
  empty_index_message : string
}.

Section Program.

Context {ext : External}.

(** A [Chroma] handle: where it is persisted and the (chunk, embedding)
    pairs it holds. *)
Record Chroma : Type := mkChroma {
  persist_directory : string;
  collection : list (Document * Vector)
}.

(** The outside world: the directories of text files, the persisted indexes
    (by directory) and the interactions so far (oldest first). *)
Record World : Type := mkWorld {
  directories : list (string * list File);
  stores : list (string * list (Document * Vector));
  trace : list Event
}.

Fixpoint lookup {A : Type} (key : string) (m : list (string * A)) : option A :=
  match m with
  | [] => None
  | (k, v) :: rest => if String.eqb key k then Some v else lookup key rest
  end.

(** ** A state and exception monad *)

Definition M (A : Type) : Type := World -> (exn + A) * World.

Definition ret {A : Type} (a : A) : M A := fun w => (inr a, w).

Definition raise {A : Type} (e : exn) : M A := fun w => (inl e, w).

Definition bind {A B : Type} (m : M A) (f : A -> M B) : M B :=
  fun w =>
    match m w with
    | (inl e, w') => (inl e, w')
    | (inr a, w') => f a w'
    end.

(** [try: m except: h] *)
Definition try_except {A : Type} (m : M A) (h : M A) : M A :=
  fun w =>
    match m w with
    | (inl _, w') => h w'
    | (inr a, w') => (inr a, w')
    end.

Definition log (ev : Event) : M unit :=
  fun w => (inr tt, mkWorld (directories w) (stores w) (trace w ++ [ev])).

Definition get_world : M World := fun w => (inr w, w).

Definition put_store (dir : string) (idx : list (Document * Vector)) : M unit :=
  fun w => (inr tt, mkWorld (directories w) ((dir, idx) :: stores w) (trace w)).

Notation "x <- m ;; k" := (bind m (fun x => k))
  (at level 100, m at next level, right associativity).
Notation "m ;;; k" := (bind m (fun _ => k))
  (at level 100, right associativity).

(** ** The vector store *)

Section Ranking.

Context {A : Type} (key : A -> Z).

(** Insertion before the first element that is not nearer: equal keys keep
    their order. *)
Fixpoint insert_by (x : A) (l : list A) : list A :=
  match l with
  | [] => [x]
  | y :: rest => if (key x <=? key y)%Z then x :: y :: rest
                 else y :: insert_by x rest
  end.

Definition sort_by (l : list A) : list A := fold_right insert_by [] l.

(** [a] is at least as near as [b]. *)
Definition le_key (a b : A) : Prop := (key a <= key b)%Z.

End Ranking.

(** Modelled from the spec: [Chroma.similarity_search] belongs to the vector
    store library, which is not part of the repository.  "Embeds [text] with
    the same embedding function used at build time, returns the k chunks
    whose embeddings are closest under the index's similarity metric,
    ordered nearest-first"; ties keep the order of the index. *)
Definition nearest (db : Chroma) (query : string) (k : nat)
  : list (Document * Vector) :=
  firstn k (sort_by (fun hit => distance (embed query) (snd hit)) (collection db)).

(** Modelled from the spec: the chunks of the [nearest] hits; "query is
    read-only", so only the trace records the search. *)
Definition similarity_search (db : Chroma) (query : string) (k : nat)
  : M (list Document) :=
  log (EvSimilaritySearch query k) ;;;
  ret (map fst (nearest db query k)).

(** ** rag_system.py *)

Record ConsultingRAG : Type := mkConsultingRAG {
  knowledge_base_path : string;
  vectordb : option Chroma;
  embeddings : string          (* model_name of the embedding function *)
}.

(** [ConsultingRAG.__init__] *)
Definition init (knowledge_base_path : string) : ConsultingRAG :=
  mkConsultingRAG knowledge_base_path None "all-MiniLM-L6-v2".

Definition separator : string := "

---

".

(** [ConsultingRAG.get_relevant_frameworks], lines 68-71: the guard and the
    search, giving [relevant_docs]. *)
Definition relevant_docs (self : ConsultingRAG) (query : string) (k : nat)
  : M (list Document) :=
  match vectordb self with
  | None => raise (ValueError "Vector database not initialized.")
  | Some db => similarity_search db query k
  end.

(** [ConsultingRAG.get_relevant_frameworks]: [relevant_docs] joined into
    [context]. *)
Definition get_relevant_frameworks (self : ConsultingRAG) (query : string) (k : nat)
  : M string :=
  docs <- relevant_docs self query k ;;
  ret (String.concat separator (map page_content docs)).

(** The loader's pattern, [glob="**/*.txt"]: the path ends in [.txt]. *)
Definition ends_with (suffix s : string) : bool :=
  (String.length suffix <=? String.length s)%nat
  && String.eqb (substring (String.length s - String.length suffix)
                           (String.length suffix) s) suffix.

Definition matches_glob (path : string) : bool := ends_with ".txt" path.

(** The loader library skips hidden files unless told otherwise
    ([load_hidden] is left at its default): a file is read only when no
    component of its path, relative to the input directory, starts with a
    dot. *)
Fixpoint visible_from (at_start : bool) (path : string) : bool :=
  match path with
  | EmptyString => true
  | String c rest =>
      if at_start && Ascii.eqb c "." then false
      else visible_from (Ascii.eqb c "/") rest
  end.

Definition is_visible (path : string) : bool := visible_from true path.

(** The files the loader reads: those the pattern matches, hidden ones
    excepted.  Paths are relative to the input directory. *)
Definition selected (path : string) : bool :=
  matches_glob path && is_visible path.

(** Modelled from the spec: [TextLoader] with [encoding='utf-8'], applied
    by the loader library to the files it reads, in the order of the
    listing.  "Reads every text file under [path], [...] fails with
    [EncodingError] if a file cannot be decoded as UTF-8." *)
Fixpoint load_files (files : list File) : exn + list Document :=
  match files with
  | [] => inr []
  | (path, bytes) :: rest =>
      if selected path then
        match decode_utf8 bytes with
        | None => inl EncodingError
        | Some text =>
            match load_files rest with
            | inl e => inl e
            | inr docs => inr (mkDocument text path :: docs)
            end
        end
      else load_files rest
  end.

(** The documents are the decoded text files, in the order of the listing. *)
Definition loaded_from (docs : list Document) (files : list File) : Prop :=
  Forall2
    (fun d file => source d = fst file /\ decode_utf8 (snd file) = Some (page_content d))
    docs
    (filter (fun file => selected (fst file)) files).

(** Modelled from the spec: [DirectoryLoader(path, glob, loader_cls,
    loader_kwargs).load()] belongs to the loader library.  "Fails with
    [LoadError] if the directory is missing or unreadable": such a directory
    is one that [directories] does not list. *)
Definition loader_load (path : string) : M (list Document) :=
  log (EvLoadDirectory path) ;;;
  w <- get_world ;;
  match lookup path (directories w) with
  | None => raise LoadError
  | Some files =>
      match load_files files with
      | inl e => raise e
      | inr docs => ret docs
      end
  end.

(** Modelled from the spec: [TextSplitter.split_documents] belongs to the
    splitter library.  "Splits each document into chunks [...] preserving
    document order within the chunk sequence"; every chunk carries the
    [source] of its document. *)
Definition split_documents (chunk_size chunk_overlap : nat)
  (documents : list Document) : list Document :=
  flat_map
    (fun d => map (fun text => mkDocument text (source d))
                  (split_text chunk_size chunk_overlap (page_content d)))
    documents.

(** The index persisted in a directory; none is an empty one. *)
Definition persisted (persist_directory : string) (w : World)
  : list (Document * Vector) :=
  match lookup persist_directory (stores w) with
  | Some index => index
  | None => []
  end.

(** The persisted indexes once the store of a directory has been opened. *)
Definition opened (persist_directory : string) (w : World)
  : list (string * list (Document * Vector)) :=
  match lookup persist_directory (stores w) with
  | Some _ => stores w
  | None => (persist_directory, []) :: stores w
  end.

(** The vector store library opens the store of a directory and creates an
    empty one when the directory holds none: it does not fail. *)
Definition open_or_create (persist_directory : string)
  : M (list (Document * Vector)) :=
  w <- get_world ;;
  match lookup persist_directory (stores w) with
  | Some index => ret index
  | None => put_store persist_directory [] ;;; ret []
  end.

(** Modelled from the spec: [Chroma.from_documents] belongs to the vector
    store library.  "Computes an embedding per chunk and persists the
    resulting index to a fixed on-disk location [...].  Returns a handle
    usable for queries."  Where the library differs from these words it is
    the library that is followed: the chunks are added to the index already
    persisted in the directory, and an empty list of chunks is refused with
    a [ValueError]. *)
Definition from_documents (documents : list Document) (persist_directory : string)
  : M Chroma :=
  existing <- open_or_create persist_directory ;;
  match documents with
  | [] => raise (ValueError empty_index_message)
  | _ :: _ =>
      log (EvEmbedDocuments (map page_content documents)) ;;;
      let index :=
        (existing ++ map (fun d => (d, embed (page_content d))) documents)%list in
      put_store persist_directory index ;;;
      log (EvPersist persist_directory) ;;;
      ret (mkChroma persist_directory index)
  end.

(** Modelled from the spec: the constructor [Chroma(persist_directory=...,
    embedding_function=...)] belongs to the vector store library.  "Reopens
    a previously persisted index without recomputation."  Where the library
    differs from the spec's words it is the library that is followed: with
    nothing persisted the constructor does not fail, it returns a handle on
    a new, empty index. *)
Definition Chroma_open (persist_directory : string) : M Chroma :=
  index <- open_or_create persist_directory ;;
  log (EvOpen persist_directory) ;;;
  ret (mkChroma persist_directory index).

(** The arguments of [RecursiveCharacterTextSplitter] in
    [build_knowledge_base]. *)
Definition chunk_size : nat := 1000.
Definition chunk_overlap : nat := 200.

(** [ConsultingRAG.build_knowledge_base].  The method assigns
    [self.vectordb] once [Chroma.from_documents] has returned; the updated
    object is the result.  The progress messages it prints are left out. *)
Definition build_knowledge_base (self : ConsultingRAG) : M ConsultingRAG :=
  documents <- loader_load (knowledge_base_path self) ;;
  let chunks := split_documents chunk_size chunk_overlap documents in
  db <- from_documents chunks "./chroma_db" ;;
  ret (mkConsultingRAG (knowledge_base_path self) (Some db) (embeddings self)).

(** [ConsultingRAG.load_existing_db] *)
Definition load_existing_db (self : ConsultingRAG) : M ConsultingRAG :=
  db <- Chroma_open "./chroma_db" ;;
  ret (mkConsultingRAG (knowledge_base_path self) (Some db) (embeddings self)).

(** ** app.py *)

(** [load_rag_system]: the retriever the application keeps for all requests. *)
Definition load_rag_system : M ConsultingRAG :=
  let rag := init "./knowledge_base" in
  try_except (load_existing_db rag) (build_knowledge_base rag).

(** The four widgets of the input form. *)
Record Fields : Type := mkFields {
  engagement_type : string;
  industry : string;
  challenge : string;
  constraints : string
}.

(** Python truth value of a [str]: only the empty string is false. *)
Definition truthy (s : string) : bool :=
  match s with
  | EmptyString => false
  | String _ _ => true
  end.

(** [query = f"{engagement_type}: {industry} - {challenge}"] *)
Definition query_of (f : Fields) : string :=
  engagement_type f ++ ": " ++ industry f ++ " - " ++ challenge f.

Definition system_prompt : string :=
"You are a senior Strategy & Operations consultant. 

Your task is to analyze business challenges and provide actionable recommendations using proven consulting frameworks.

Key principles:
- Data-driven and realistic
- Break complex problems into actionable steps
- Balance technical and business perspectives
- Provide specific metrics and timelines
- Professional but clear communication

Output a comprehensive strategy brief with these sections:
1. EXECUTIVE SUMMARY (3-4 key bullets)
2. CURRENT STATE ASSESSMENT
3. GAP ANALYSIS
4. PRIORITIZED RECOMMENDATIONS (with effort/impact scores)
5. IMPLEMENTATION ROADMAP (phased timeline)
6. SUCCESS METRICS
7. RISK REGISTER

Use concrete examples and specific numbers where possible.".

(** [user_prompt], an f-string, in three parts: the text before
    [{relevant_frameworks}], the substituted value, and the text after it
    with the four form fields substituted. *)
Definition frameworks_heading : string :=
"
RELEVANT CONSULTING FRAMEWORKS:
".

Definition client_section (f : Fields) : string :=
"

CLIENT CHALLENGE:
Engagement Type: " ++ engagement_type f ++ "
Industry: " ++ industry f ++ "
Challenge: " ++ challenge f ++ "
Constraints: " ++ (if truthy (constraints f) then constraints f else "None specified") ++ "

Using the frameworks above, generate a comprehensive strategy brief for this challenge.
".

Definition user_prompt (f : Fields) (relevant_frameworks : string) : string :=
  frameworks_heading ++ relevant_frameworks ++ client_section f.

(** The text sent as the user message: [system_prompt], an empty line, then
    [user_prompt]. *)
Definition message_content (f : Fields) (relevant_frameworks : string) : string :=
  system_prompt ++ "

" ++ user_prompt f relevant_frameworks.

(** The prompt as a function of the form fields and the retrieved chunks:
    line 72 of [rag_system.py] followed by lines 163-204 of [app.py]. *)
Definition compose (f : Fields) (retrieved_chunks : list Document) : string :=
  message_content f (String.concat separator (map page_content retrieved_chunks)).

(** Lines 200-209 of [app.py]: the call to the generation service and the
    extraction of [response.content[0].text]. *)
Definition generate (prompt : string) : M string :=
  let req := mkRequest "claude-sonnet-4-20250514" 4000 [("user", prompt)] in
  w <- get_world ;;
  log (EvMessagesCreate req) ;;;
  match messages_create (trace w) req with
  | inl e => raise e
  | inr response =>
      match content response with
      | [] => raise IndexError
      | text :: _ => ret text
      end
  end.

(** The body of [if st.button(...)], lines 152-214 of [app.py], for the
    retriever [rag] and the current values of the form.  Only the brief
    itself is recorded among the rendering calls that follow the
    generation; the surrounding markup and the download button are
    presentation. *)
Definition on_generate (rag : ConsultingRAG) (f : Fields) : M unit :=
  if negb (truthy (challenge f)) then
    log (EvStError "Please describe the challenge before generating a brief.")
  else
    relevant_frameworks <- get_relevant_frameworks rag (query_of f) 3 ;;
    strategy_brief <- generate (message_content f relevant_frameworks) ;;
    log (EvStMarkdown strategy_brief).

(** ** Sequences of operations on one retriever *)

Inductive Op : Type :=
| OpBuild
| OpLoad
| OpQuery (query : string) (k : nat).

(** One method call on the retriever; a call that raises leaves the object
    as it was. *)
Definition step (op : Op) (self : ConsultingRAG) (w : World)
  : ConsultingRAG * World :=
  match op with
  | OpBuild =>
      match build_knowledge_base self w with
      | (inr self', w') => (self', w')
      | (inl _, w') => (self, w')
      end
  | OpLoad =>
      match load_existing_db self w with
      | (inr self', w') => (self', w')
      | (inl _, w') => (self, w')
      end
  | OpQuery query k => (self, snd (get_relevant_frameworks self query k w))
  end.

Fixpoint run (ops : list Op) (self : ConsultingRAG) (w : World)
  : ConsultingRAG * World :=
  match ops with
  | [] => (self, w)
  | op :: rest => let '(self', w') := step op self w in run rest self' w'
  end.

(** ** rag_system.py: the self-test *)

(** A byte that continues a code point in UTF-8 (10xxxxxx). *)
Definition is_continuation (c : ascii) : bool :=
  (128 <=? nat_of_ascii c)%nat && (nat_of_ascii c <? 192)%nat.

(** Python [len] of a [str]: its number of code points. *)
Fixpoint char_count (s : string) : nat :=
  match s with
  | EmptyString => 0
  | String c rest =>
      if is_continuation c then char_count rest else S (char_count rest)
  end.

(** Python [s[:n]]: the first [n] code points of [s]. *)
Fixpoint take_chars (n : nat) (s : string) : string :=
  match s with
  | EmptyString => EmptyString
  | String c rest =>
      if is_continuation c then String c (take_chars n rest)
      else
        match n with
        | 0 => EmptyString
        | S n' => String c (take_chars n' rest)
        end
  end.

(** [test_rag]: a build from the default directory, then one query for two
    chunks.  The result is the text of the excerpt it prints,
    [context[:500] + "...\n"]; the other messages it prints are left out. *)
Definition test_rag : M string :=
  rag <- build_knowledge_base (init "./knowledge_base") ;;
  let test_query := "How do I handle a post-merger integration?" in
  context <- get_relevant_frameworks rag test_query 2 ;;
  ret (take_chars 500 context ++ "...
").

(** ** app.py: the sample scenarios and the form *)

(** [st.session_state]: the entries set so far, the most recent first. *)
Definition Session : Type := list (string * string).

(** [st.session_state.key = value] *)
Definition session_set (key value : string) (session : Session) : Session :=
  (key, value) :: session.

(** [st.session_state.get(key, "")] *)
Definition session_get (key : string) (session : Session) : string :=
  match lookup key session with
  | Some value => value
  | None => EmptyString
  end.

(** The dict [sample_scenarios], in the order of its keys. *)
Definition sample_scenarios : list (string * Fields) :=
  [ ("Post-M&A Tech Integration",
     mkFields
       "M&A Integration"
       "Technology / SaaS"
       "Two companies recently merged. Need to integrate different tech stacks (one on AWS, one on Google Cloud), combine engineering teams, and show synergies to investors within 90 days."
       "Limited budget for migration, key engineers considering leaving, customers worried about service disruption");
    ("Scaling Operations 3x",
     mkFields
       "Operational Transformation"
       "E-commerce"
       "Company growing 300% year-over-year but operations team can't keep up. Current processes are manual and breaking down. Need to scale without proportional headcount increase."
       "Can't afford expensive enterprise software, need solutions in 6 months, team resistant to change");
    ("Building Strategic PMO",
     mkFields
       "Organizational Design"
       "Financial Services"
       "Multiple strategic initiatives happening simultaneously with no coordination. Projects are delayed, resources over-allocated, unclear priorities. Need to establish Project Management Office."
       "Decentralized organization, no existing PMO expertise, executives skeptical of process overhead") ].

(** Lines 105-108: the four assignments made when a scenario's button is
    pressed. *)
Definition load_scenario (scenario_data : Fields) (session : Session) : Session :=
  session_set "constraints" (constraints scenario_data)
    (session_set "challenge" (challenge scenario_data)
       (session_set "industry" (industry scenario_data)
          (session_set "engagement_type" (engagement_type scenario_data) session))).

(** Lines 103-108: one sidebar button per scenario; [pressed] tells which
    buttons return [True] in this run of the script. *)
Fixpoint sidebar (pressed : string -> bool) (scenarios : list (string * Fields))
  (session : Session) : Session :=
  match scenarios with
  | [] => session
  | (scenario_name, scenario_data) :: rest =>
      sidebar pressed rest
        (if pressed scenario_name then load_scenario scenario_data session
         else session)
  end.

(** The options of the engagement type select box. *)
Definition engagement_options : list string :=
  [ "Strategy & Execution";
    "Process Improvement";
    "Operational Transformation";
    "Organizational Design";
    "M&A Integration" ].

(** [list.index]: the position of the first element equal to [x]; [None]
    stands for the [ValueError] Python raises when there is none. *)
Fixpoint index_of (x : string) (l : list string) : option nat :=
  match l with
  | [] => None
  | y :: rest =>
      if String.eqb y x then Some 0
      else
        match index_of x rest with
        | Some i => Some (S i)
        | None => None
        end
  end.

(** Lines 125-127: the [index] argument of the select box. *)
Definition selectbox_index (session : Session) : option nat :=
  match lookup "engagement_type" session with
  | None => Some 0
  | Some value => index_of value engagement_options
  end.

(** Lines 116-148: the values the four widgets start from, the option at
    [index] for the select box and the [value] arguments of the three text
    inputs; [None] when computing [index] raises. *)
Definition form_defaults (session : Session) : option Fields :=
  match selectbox_index session with
  | None => None
  | Some i =>
      Some (mkFields (nth i engagement_options EmptyString)
                     (session_get "industry" session)
                     (session_get "challenge" session)
                     (session_get "constraints" session))
  end.

(** ** app.py: the name of the downloaded file *)

Fixpoint map_chars (f : ascii -> ascii) (s : string) : string :=
  match s with
  | EmptyString => EmptyString
  | String c rest => String (f c) (map_chars f rest)
  end.

(** [s.replace(old, new)] for one-character [old] and [new]. *)
Definition replace (old new : ascii) (s : string) : string :=
  map_chars (fun c => if Ascii.eqb c old then new else c) s.

Definition is_upper (c : ascii) : bool :=
  (65 <=? nat_of_ascii c)%nat && (nat_of_ascii c <=? 90)%nat.

Definition lower_char (c : ascii) : ascii :=
  if is_upper c then ascii_of_nat (nat_of_ascii c + 32) else c.

(** [s.lower()] on ASCII text: the letters A-Z become a-z and nothing else
    changes.  The bytes of other code points are left as they are, which is
    what Python does for ASCII text only; the properties of file names are
    stated for ASCII text. *)
Definition lower (s : string) : string := map_chars lower_char s.

Definition is_ascii (s : string) : bool :=
  forallb (fun c => (nat_of_ascii c <? 128)%nat) (list_ascii_of_string s).

(** Line 221:
    [file_name=f"strategy_brief_{industry.replace(' ', '_').lower()}.txt"] *)
Definition download_file_name (industry : string) : string :=
  "strategy_brief_" ++ lower (replace " " "_" industry) ++ ".txt".

End Program.

(** ** A concrete instance of the external capabilities

    Used to run the program on examples: strict UTF-8 validation of the file
    bytes, fixed-width windows for the splitter, the length of a text as its
    embedding, and a generation service that refuses an empty prompt. *)

Definition in_range (lo hi : N) (b : Byte.byte) : bool :=
  ((lo <=? Byte.to_N b) && (Byte.to_N b <=? hi))%N.

Definition second_of_three (b0 b1 : Byte.byte) : bool :=
  if in_range 224 224 b0 then in_range 160 191 b1
  else if in_range 237 237 b0 then in_range 128 159 b1
  else in_range 128 191 b1.

Definition second_of_four (b0 b1 : Byte.byte) : bool :=
  if in_range 240 240 b0 then in_range 144 191 b1
  else if in_range 244 244 b0 then in_range 128 143 b1
  else in_range 128 191 b1.

(** Well-formed UTF-8: no overlong forms, no surrogates, nothing above
    U+10FFFF. *)
Fixpoint utf8_valid (bs : list Byte.byte) : bool :=
  match bs with
  | [] => true
  | b0 :: r1 =>
      if in_range 0 127 b0 then utf8_valid r1
      else
        match r1 with
        | [] => false
        | b1 :: r2 =>
            if in_range 194 223 b0 then in_range 128 191 b1 && utf8_valid r2
            else
              match r2 with
              | [] => false
              | b2 :: r3 =>
                  if in_range 224 239 b0 then
                    second_of_three b0 b1 && in_range 128 191 b2 && utf8_valid r3
                  else
                    match r3 with
                    | [] => false
                    | b3 :: r4 =>
                        in_range 240 244 b0 && second_of_four b0 b1
                        && in_range 128 191 b2 && in_range 128 191 b3
                        && utf8_valid r4
                    end
              end
        end
  end.

Definition strict_utf8 (bs : list Byte.byte) : option string :=
  if utf8_valid bs then Some (string_of_list_byte bs) else None.

Fixpoint windows (fuel size stride : nat) (s : string) : list string :=
  match fuel with
  | 0 => []
  | S fuel' =>
      if (String.length s <=? size)%nat then [s]
      else substring 0 size s
             :: windows fuel' size stride
                  (substring stride (String.length s - stride) s)
  end.

Definition window_split (size overlap : nat) (s : string) : list string :=
  windows (String.length s) size (size - overlap) s.

Definition demo_service (history : list Event) (req : Request) : exn + Message :=
  match messages req with
  | [(_, String _ _)] => inr (mkMessage ["STRATEGY BRIEF"])
  | _ => inl (ServiceError "invalid_request_error")
  end.

Definition demo : External := {|
  Vector := Z;
  embed := fun text => Z.of_nat (String.length text);
  distance := fun a b => Z.abs (a - b);
  decode_utf8 := strict_utf8;
  split_text := window_split;
  messages_create := demo_service;
  empty_index_message := "Expected IDs to be a non-empty list"
|}.

(** The same instance with another generation service. *)
Definition demo_with (service : list Event -> Request -> exn + Message) : External := {|
  Vector := Z;
  embed := fun text => Z.of_nat (String.length text);
  distance := fun a b => Z.abs (a - b);
  decode_utf8 := strict_utf8;
  split_text := window_split;
  messages_create := service;
  empty_index_message := "Expected IDs to be a non-empty list"
|}.

(** A service that is overloaded, and one whose answer has no content. *)
Definition overloaded : External :=
  demo_with (fun _ _ => inl (ServiceError "overloaded_error")).

Definition silent : External :=
  demo_with (fun _ _ => inr (mkMessage [])).

Definition demo_index : list (Document * Z) :=
  [ (mkDocument "RACI matrix: clarify roles" "kb/raci.txt", 26%Z);
    (mkDocument "Gap analysis" "kb/gap.txt", 12%Z);
    (mkDocument "M&A playbook: align on day-1 readiness" "kb/mna.txt", 38%Z) ].

Definition demo_db : Chroma (ext := demo) :=
  mkChroma (ext := demo) "./chroma_db" demo_index.

Definition demo_rag : ConsultingRAG (ext := demo) :=
  mkConsultingRAG (ext := demo) "./knowledge_base" (Some demo_db) "all-MiniLM-L6-v2".

Definition demo_db_with (service : list Event -> Request -> exn + Message)
  : Chroma (ext := demo_with service) :=
  mkChroma (ext := demo_with service) "./chroma_db" demo_index.

Definition demo_rag_with (service : list Event -> Request -> exn + Message)
  : ConsultingRAG (ext := demo_with service) :=
  mkConsultingRAG (ext := demo_with service) "./knowledge_base"
    (Some (demo_db_with service)) "all-MiniLM-L6-v2".

Definition empty_world_with (service : list Event -> Request -> exn + Message)
  : World (ext := demo_with service) :=
  mkWorld (ext := demo_with service) [] [] [].

(** Nothing on disk. *)
Definition empty_world : World (ext := demo) := mkWorld (ext := demo) [] [] [].

(** The word "cafe" with its accent, in Latin-1: not UTF-8. *)
Definition latin1_bytes : list Byte.byte := [Byte.x63; Byte.x61; Byte.x66; Byte.xe9].

(** A knowledge base of two UTF-8 [.txt] files, one Latin-1 note with
    another extension and one hidden Latin-1 draft; no persisted index. *)
Definition kb_files : list File :=
  [("kb/gap.txt", list_byte_of_string "Gap analysis");
   ("kb/notes.md", latin1_bytes);
   ("kb/.draft.txt", latin1_bytes);
   ("kb/raci.txt", list_byte_of_string "RACI matrix: clarify roles")].

Definition kb_world : World (ext := demo) :=
  mkWorld (ext := demo) [("./knowledge_base", kb_files)] [] [].

(** A knowledge base in which one text file is not UTF-8. *)
Definition bad_files : list File :=
  [("kb/gap.txt", list_byte_of_string "Gap analysis");
   ("kb/raci.txt", [Byte.x52; Byte.xc3; Byte.x28])].

Definition bad_world : World (ext := demo) :=
  mkWorld (ext := demo) [("./knowledge_base", bad_files)] [] [].

(** A knowledge base in which the loader reads no file. *)
Definition unread_files : list File :=
  [("kb/notes.md", latin1_bytes); ("kb/.draft.txt", latin1_bytes)].

Definition unread_world : World (ext := demo) :=
  mkWorld (ext := demo) [("./knowledge_base", unread_files)] [] [].

(** The retriever and the world after a build on [kb_world]. *)
Definition built_index : list (Document * Z) :=
  [ (mkDocument "Gap analysis" "kb/gap.txt", 12%Z);
    (mkDocument "RACI matrix: clarify roles" "kb/raci.txt", 26%Z) ].

Definition built_rag : ConsultingRAG (ext := demo) :=
  mkConsultingRAG (ext := demo) "./knowledge_base"
    (Some (mkChroma (ext := demo) "./chroma_db" built_index)) "all-MiniLM-L6-v2".

Definition built_world : World (ext := demo) :=
  mkWorld (ext := demo) [("./knowledge_base", kb_files)]
    [("./chroma_db", built_index); ("./chroma_db", [])]
    [EvLoadDirectory "./knowledge_base";
     EvEmbedDocuments ["Gap analysis"; "RACI matrix: clarify roles"];
     EvPersist "./chroma_db"].

(** The scenario of the design document: a single document. *)
Definition scenario_world : World (ext := demo) :=
  mkWorld (ext := demo)
    [("./knowledge_base",
      [("kb/mna.txt",
        list_byte_of_string "M&A playbook: align on day-1 readiness")])]
    [] [].

Definition demo_ops : list Op :=
  [OpQuery "process improvement" 3; OpLoad; OpBuild; OpQuery "org design" 1].

(** A persisted index and no knowledge base. *)
Definition stored_world : World (ext := demo) :=
  mkWorld (ext := demo) [] [("./chroma_db", demo_index)] [].

Definition demo_fields : Fields :=
  mkFields "M&A Integration" "Technology / SaaS"
           "Two companies recently merged." "Limited budget for migration".

Definition demo_fields' : Fields :=
  mkFields "M&A Integration" "Technology / SaaS"
           "Two companies recently merged." "Key engineers considering leaving".

Definition blank_fields : Fields :=
  mkFields "Strategy & Execution" "Finance" EmptyString "Budget limits".

(** * Properties *)

Section Properties.

Context {ext : External}.


(** ** Ranking by distance *)

Lemma firstn_In {A : Type} (k : nat) (l : list A) (x : A) :
  In x (firstn k l) -> In x l.
Proof.
  intros Hin. rewrite <- (firstn_skipn k l).
  apply in_or_app. left. exact Hin.
Qed.

Section RankingFacts.

Context {A : Type} (key : A -> Z).

Lemma insert_by_perm (x : A) (l : list A) :
  Permutation (insert_by key x l) (x :: l).
Proof.
  induction l as [| y rest IH]; simpl.
  - apply Permutation_refl.
  - destruct (key x <=? key y)%Z.
    + apply Permutation_refl.
    + eapply perm_trans; [apply perm_skip, IH | apply perm_swap].
Qed.

Lemma sort_by_perm (l : list A) : Permutation (sort_by key l) l.
Proof.
  induction l as [| x rest IH]; simpl.
  - constructor.
  - eapply perm_trans; [apply insert_by_perm | apply perm_skip, IH].
Qed.

Lemma insert_by_sorted (x : A) (l : list A) :
  StronglySorted (le_key key) l -> StronglySorted (le_key key) (insert_by key x l).
Proof.
  induction 1 as [| y rest Hs IH Hall]; simpl.
  - repeat constructor.
  - destruct (Z.leb_spec (key x) (key y)) as [Hle | Hgt].
    + constructor; [constructor; assumption |].
      constructor; [exact Hle |].
      eapply Forall_impl; [| exact Hall].
      intros z Hz. unfold le_key in *. lia.
    + constructor; [exact IH |].
      eapply Permutation_Forall; [apply Permutation_sym, insert_by_perm |].
      constructor; [unfold le_key; lia | exact Hall].
Qed.

Lemma sort_by_sorted (l : list A) : StronglySorted (le_key key) (sort_by key l).
Proof.
  induction l as [| x rest IH]; simpl.
  - constructor.
  - apply insert_by_sorted, IH.
Qed.

Lemma firstn_sorted (k : nat) (l : list A) :
  StronglySorted (le_key key) l -> StronglySorted (le_key key) (firstn k l).
Proof.
  intros Hs. revert k.
  induction Hs as [| y rest Hs IH Hall]; intros [| k]; simpl; try constructor.
  - apply IH.
  - rewrite Forall_forall in *. intros z Hz.
    apply Hall. apply (firstn_In k). exact Hz.
Qed.

Lemma sorted_nth_error (l : list A) :
  StronglySorted (le_key key) l ->
  forall i j a b, i <= j -> nth_error l i = Some a -> nth_error l j = Some b ->
    (key a <= key b)%Z.
Proof.
  induction 1 as [| y rest Hs IH Hall]; intros i j a b Hij Ha Hb.
  - destruct i; discriminate.
  - destruct i as [| i], j as [| j]; simpl in *.
    + injection Ha as <-. injection Hb as <-. lia.
    + injection Ha as <-. rewrite Forall_forall in Hall.
      apply Hall. eapply nth_error_In. exact Hb.
    + lia.
    + eapply IH; [| exact Ha | exact Hb]. lia.
Qed.

End RankingFacts.

(** The hits of a search: at most [k], nearest first, all from the index. *)
Lemma nearest_spec (db : Chroma) (query : string) (k : nat) :
  length (nearest db query k) <= k /\
  (forall i j a b, i <= j ->
     nth_error (nearest db query k) i = Some a ->
     nth_error (nearest db query k) j = Some b ->
     (distance (embed query) (snd a) <= distance (embed query) (snd b))%Z) /\
  (forall hit, In hit (nearest db query k) -> In hit (collection db)).
Proof.
  unfold nearest. split; [| split].
  - apply firstn_le_length.
  - intros i j a b.
    apply (sorted_nth_error (fun hit => distance (embed query) (snd hit))).
    apply firstn_sorted, sort_by_sorted.
  - intros hit Hin.
    eapply Permutation_in; [apply sort_by_perm |].
    eapply firstn_In. exact Hin.
Qed.

(** ** The retriever *)

(** With an index at hand the guard passes and the search is performed. *)
Lemma relevant_docs_ready (self : ConsultingRAG) (db : Chroma)
  (query : string) (k : nat) (w : World) :
  vectordb self = Some db ->
  relevant_docs self query k w =
    (inr (map fst (nearest db query k)),
     mkWorld (directories w) (stores w) (trace w ++ [EvSimilaritySearch query k])).
Proof.
  intros Hdb. unfold relevant_docs. rewrite Hdb. reflexivity.
Qed.

Lemma get_relevant_frameworks_ready (self : ConsultingRAG) (db : Chroma)
  (query : string) (k : nat) (w : World) :
  vectordb self = Some db ->
  get_relevant_frameworks self query k w =
    (inr (String.concat separator (map page_content (map fst (nearest db query k)))),
     mkWorld (directories w) (stores w) (trace w ++ [EvSimilaritySearch query k])).
Proof.
  intros Hdb. unfold get_relevant_frameworks, bind.
  rewrite (relevant_docs_ready self db query k w Hdb). reflexivity.
Qed.

Lemma get_relevant_frameworks_not_ready (self : ConsultingRAG)
  (query : string) (k : nat) (w : World) :
  vectordb self = None ->
  get_relevant_frameworks self query k w = (inl NotReadyError, w).
Proof.
  intros Hdb. unfold get_relevant_frameworks, relevant_docs, bind.
  rewrite Hdb. reflexivity.
Qed.

(** C1. For a retriever that holds an index, every query text and every
    k >= 1, the search yields a sequence of at most k chunks of that index,
    nearest first under the index's metric; [relevant_docs] is that sequence
    and [get_relevant_frameworks] returns its texts joined by the separator. *)
Theorem C1_query_at_most_k_nearest_first (self : ConsultingRAG) (db : Chroma)
  (query : string) (k : nat) (w : World) :
  vectordb self = Some db ->
  1 <= k ->
  exists hits : list (Document * Vector),
    fst (relevant_docs self query k w) = inr (map fst hits) /\
    fst (get_relevant_frameworks self query k w) =
      inr (String.concat separator (map page_content (map fst hits))) /\
    length (map fst hits) <= k /\
    (forall i j a b, i <= j ->
       nth_error hits i = Some a -> nth_error hits j = Some b ->
       (distance (embed query) (snd a) <= distance (embed query) (snd b))%Z) /\
    (forall hit, In hit hits -> In hit (collection db)).
Proof.
  intros Hdb _. exists (nearest db query k).
  destruct (nearest_spec db query k) as (Hlen & Hord & Hin).
  rewrite (relevant_docs_ready self db query k w Hdb).
  rewrite (get_relevant_frameworks_ready self db query k w Hdb).
  rewrite length_map. auto.
Qed.

(** C2. On a retriever that was never built and never loaded, a query
    fails with the not-ready error, whatever the text and k, and leaves the
    world untouched: no search is recorded. *)
Theorem C2_query_before_build_or_load (path query : string) (k : nat) (w : World) :
  get_relevant_frameworks (init path) query k w = (inl NotReadyError, w).
Proof.
  apply get_relevant_frameworks_not_ready. reflexivity.
Qed.

(** What [load_existing_db] does on each kind of disk. *)
Lemma load_existing_db_run (self : ConsultingRAG) (w : World) :
  load_existing_db self w =
    (inr (mkConsultingRAG (knowledge_base_path self)
                          (Some (mkChroma "./chroma_db" (persisted "./chroma_db" w)))
                          (embeddings self)),
     mkWorld (directories w) (opened "./chroma_db" w)
       (trace w ++ [EvOpen "./chroma_db"])).
Proof.
  unfold load_existing_db, Chroma_open, open_or_create, persisted, opened,
    bind, get_world.
  destruct (lookup "./chroma_db" (stores w)); reflexivity.
Qed.

Lemma load_existing_db_missing (self : ConsultingRAG) (w : World) :
  lookup "./chroma_db" (stores w) = None ->
  load_existing_db self w =
    (inr (mkConsultingRAG (knowledge_base_path self)
                          (Some (mkChroma "./chroma_db" []))
                          (embeddings self)),
     mkWorld (directories w) (("./chroma_db", []) :: stores w)
       (trace w ++ [EvOpen "./chroma_db"])).
Proof.
  intros Hnone. rewrite load_existing_db_run. unfold persisted, opened.
  rewrite Hnone. reflexivity.
Qed.

Lemma load_existing_db_present (self : ConsultingRAG) (w : World)
  (index : list (Document * Vector)) :
  lookup "./chroma_db" (stores w) = Some index ->
  load_existing_db self w =
    (inr (mkConsultingRAG (knowledge_base_path self)
                          (Some (mkChroma "./chroma_db" index))
                          (embeddings self)),
     mkWorld (directories w) (stores w) (trace w ++ [EvOpen "./chroma_db"])).
Proof.
  intros Hsome. rewrite load_existing_db_run. unfold persisted, opened.
  rewrite Hsome. reflexivity.
Qed.

(** C3, what the code does.  With a persisted index at ./chroma_db,
    [load_existing_db] returns a retriever holding exactly the persisted
    pairs; the only interaction recorded is the reopening (no embedding is
    computed, nothing is written) and queries on the result pass the guard.
    Without one it does not fail: it returns normally, with a retriever that
    holds a new, empty index, so that nothing tells the caller that there
    was nothing to load. *)
Theorem C3_load_existing_db (self : ConsultingRAG) (w : World) :
  (lookup "./chroma_db" (stores w) = None ->
   exists self' w',
     load_existing_db self w = (inr self', w') /\
     vectordb self' = Some (mkChroma "./chroma_db" []) /\
     trace w' = (trace w ++ [EvOpen "./chroma_db"])%list) /\
  (forall index, lookup "./chroma_db" (stores w) = Some index ->
   exists self' w',
     load_existing_db self w = (inr self', w') /\
     vectordb self' = Some (mkChroma "./chroma_db" index) /\
     trace w' = (trace w ++ [EvOpen "./chroma_db"])%list /\
     stores w' = stores w /\
     forall query k w'',
       fst (get_relevant_frameworks self' query k w'') =
         inr (String.concat separator
                (map page_content
                   (map fst (nearest (mkChroma "./chroma_db" index) query k))))).
Proof.
  split.
  - intros Hnone. rewrite (load_existing_db_missing self w Hnone).
    eexists. eexists. split; [reflexivity |]. split; reflexivity.
  - intros index Hsome.
    rewrite (load_existing_db_present self w index Hsome).
    eexists. eexists. split; [reflexivity |].
    split; [reflexivity |]. split; [reflexivity |]. split; [reflexivity |].
    intros query k w''.
    rewrite (get_relevant_frameworks_ready _ (mkChroma "./chroma_db" index));
      reflexivity.
Qed.

(** ** The brief generator *)

Lemma string_app_assoc (a b c : string) : (a ++ b) ++ c = a ++ (b ++ c).
Proof.
  induction a as [| ch a IH]; simpl; [reflexivity | now rewrite IH].
Qed.

(** The request of [app.py] for a given prompt. *)
Lemma generate_run (prompt : string) (w : World) :
  generate prompt w =
    (match
       messages_create (trace w)
         (mkRequest "claude-sonnet-4-20250514" 4000 [("user", prompt)])
     with
     | inl e => inl e
     | inr response =>
         match content response with
         | [] => inl IndexError
         | text :: _ => inr text
         end
     end,
     mkWorld (directories w) (stores w)
       (trace w ++ [EvMessagesCreate
                      (mkRequest "claude-sonnet-4-20250514" 4000 [("user", prompt)])])).
Proof.
  unfold generate, bind, get_world, log. simpl.
  destruct (messages_create _ _) as [e | response]; [reflexivity |].
  destruct (content response); reflexivity.
Qed.

(** The interactions of one accepted request: one search, then one call to
    the generation service with the composed prompt, then at most the
    display of the brief. *)
Lemma on_generate_ready (rag : ConsultingRAG) (db : Chroma) (f : Fields) (w : World) :
  vectordb rag = Some db ->
  truthy (challenge f) = true ->
  exists rest,
    trace (snd (on_generate rag f w)) =
      (trace w
       ++ [EvSimilaritySearch (query_of f) 3;
           EvMessagesCreate
             (mkRequest "claude-sonnet-4-20250514" 4000
                [("user", compose f (map fst (nearest db (query_of f) 3)))])]
       ++ rest)%list /\
    (rest = [] \/ exists body, rest = [EvStMarkdown body]).
Proof.
  intros Hdb Hchallenge. unfold on_generate. rewrite Hchallenge. simpl.
  unfold bind at 1.
  rewrite (get_relevant_frameworks_ready rag db (query_of f) 3 w Hdb).
  unfold bind. rewrite generate_run. simpl. fold (compose f (map fst (nearest db (query_of f) 3))).
  destruct (messages_create _ _) as [e | response].
  - exists []. simpl. rewrite <- app_assoc. split; [reflexivity | now left].
  - destruct (content response) as [| text more].
    + exists []. simpl. rewrite <- app_assoc. split; [reflexivity | now left].
    + exists [EvStMarkdown text]. simpl. rewrite <- !app_assoc.
      split; [reflexivity | right; now exists text].
Qed.

(** C4. The prompt is a fixed template: a fixed text, the texts of the
    retrieved chunks joined by the fixed separator, then a text that depends
    on the form fields only.  Composing it involves neither the retriever nor
    the generation service: in an accepted request the only search comes
    before it and the only call to the service after it, carrying exactly
    the composed prompt. *)
Theorem C4_compose_fixed_template :
  (exists (before : string) (after : Fields -> string),
     forall f chunks,
       compose f chunks =
         before ++ String.concat separator (map page_content chunks) ++ after f) /\
  (forall (rag : ConsultingRAG) (db : Chroma) (f : Fields) (w : World),
     vectordb rag = Some db ->
     truthy (challenge f) = true ->
     exists rest,
       trace (snd (on_generate rag f w)) =
         (trace w
          ++ [EvSimilaritySearch (query_of f) 3;
              EvMessagesCreate
                (mkRequest "claude-sonnet-4-20250514" 4000
                   [("user", compose f (map fst (nearest db (query_of f) 3)))])]
          ++ rest)%list /\
       forallb (fun ev => negb (is_search ev || is_generation ev)) rest = true).
Proof.
  split.
  - exists (system_prompt ++ "

" ++ frameworks_heading).
    exists client_section.
    intros f chunks. unfold compose, message_content, user_prompt.
    now rewrite !string_app_assoc.
  - intros rag db f w Hdb Hchallenge.
    destruct (on_generate_ready rag db f w Hdb Hchallenge) as (rest & Htrace & Hrest).
    exists rest. split; [exact Htrace |].
    destruct Hrest as [-> | [body ->]]; reflexivity.
Qed.

(** C5. The prompt is determined by the form fields and by the texts of the
    retrieved chunks: equal fields and equal chunk texts give equal prompts,
    byte for byte, whatever else the chunks carry. *)
Theorem C5_compose_pure (f1 f2 : Fields) (chunks1 chunks2 : list Document) :
  f1 = f2 ->
  map page_content chunks1 = map page_content chunks2 ->
  compose f1 chunks1 = compose f2 chunks2.
Proof.
  intros -> Htexts. unfold compose. now rewrite Htexts.
Qed.

(** C6. For every prompt exactly one request goes to the generation
    service: the fixed model identifier, the fixed maximum output length and
    the prompt as the single user message.  A failure of the service comes
    back as it is, after that single request; otherwise the text of the
    answer is returned unchanged. *)
Theorem C6_generate_single_call (prompt : string) (w : World) :
  let req := mkRequest "claude-sonnet-4-20250514" 4000 [("user", prompt)] in
  snd (generate prompt w) =
    mkWorld (directories w) (stores w) (trace w ++ [EvMessagesCreate req]) /\
  (forall e, messages_create (trace w) req = inl e ->
     fst (generate prompt w) = inl e) /\
  (forall text more, messages_create (trace w) req = inr (mkMessage (text :: more)) ->
     fst (generate prompt w) = inr text).
Proof.
  intros req. rewrite generate_run. fold req. simpl.
  split; [reflexivity |]. split.
  - intros e ->. reflexivity.
  - intros text more ->. reflexivity.
Qed.

(** ** Building the knowledge base *)

Lemma load_files_undecodable (files : list File) :
  (exists path bytes,
     In (path, bytes) files /\ selected path = true /\ decode_utf8 bytes = None) ->
  load_files files = inl EncodingError.
Proof.
  induction files as [| [path0 bytes0] rest IH]; intros (path & bytes & Hin & Hsel & Hdec).
  - destruct Hin.
  - simpl. destruct Hin as [Heq | Hin].
    + injection Heq as -> ->. rewrite Hsel, Hdec. reflexivity.
    + assert (Hrest : load_files rest = inl EncodingError)
        by (apply IH; exists path, bytes; auto).
      rewrite Hrest.
      destruct (selected path0); [| reflexivity].
      destruct (decode_utf8 bytes0); reflexivity.
Qed.

Lemma load_files_decodable (files : list File) :
  (forall path bytes,
     In (path, bytes) files -> selected path = true -> decode_utf8 bytes <> None) ->
  exists docs, load_files files = inr docs /\ loaded_from docs files.
Proof.
  unfold loaded_from.
  induction files as [| [path0 bytes0] rest IH]; intros Hall.
  - exists []. split; [reflexivity | constructor].
  - destruct IH as (docs & Hload & Hdocs).
    { intros path bytes Hin. apply Hall. now right. }
    simpl. destruct (selected path0) eqn:Hsel.
    + destruct (decode_utf8 bytes0) as [text |] eqn:Hdec.
      * rewrite Hload. exists (mkDocument text path0 :: docs).
        split; [reflexivity |]. constructor; [| exact Hdocs]. simpl. auto.
      * exfalso. apply (Hall path0 bytes0); auto. now left.
    + exists docs. split; assumption.
Qed.

Lemma selected_both (path : string) :
  selected path = true <-> matches_glob path = true /\ is_visible path = true.
Proof.
  unfold selected. apply andb_true_iff.
Qed.

Lemma build_knowledge_base_run (self : ConsultingRAG) (w : World) :
  build_knowledge_base self w =
    match lookup (knowledge_base_path self) (directories w) with
    | None =>
        (inl LoadError,
         mkWorld (directories w) (stores w)
           (trace w ++ [EvLoadDirectory (knowledge_base_path self)]))
    | Some files =>
        match load_files files with
        | inl e =>
            (inl e,
             mkWorld (directories w) (stores w)
               (trace w ++ [EvLoadDirectory (knowledge_base_path self)]))
        | inr docs =>
            match split_documents chunk_size chunk_overlap docs with
            | [] =>
                (inl (ValueError empty_index_message),
                 mkWorld (directories w) (opened "./chroma_db" w)
                   (trace w ++ [EvLoadDirectory (knowledge_base_path self)]))
            | chunk :: chunks =>
                let index :=
                  (persisted "./chroma_db" w
                   ++ map (fun d => (d, embed (page_content d))) (chunk :: chunks))%list in
                (inr (mkConsultingRAG (knowledge_base_path self)
                                      (Some (mkChroma "./chroma_db" index))
                                      (embeddings self)),
                 mkWorld (directories w)
                   (("./chroma_db", index) :: opened "./chroma_db" w)
                   (trace w
                    ++ [EvLoadDirectory (knowledge_base_path self);
                        EvEmbedDocuments (map page_content (chunk :: chunks));
                        EvPersist "./chroma_db"]))
            end
        end
    end.
Proof.
  unfold build_knowledge_base, loader_load, from_documents, open_or_create,
    persisted, opened, bind, log, get_world, put_store, raise, ret.
  simpl.
  destruct (lookup (knowledge_base_path self) (directories w)) as [files |];
    [| reflexivity].
  destruct (load_files files) as [e | docs]; [reflexivity |].
  simpl.
  destruct (lookup "./chroma_db" (stores w)) as [index |];
    destruct (split_documents chunk_size chunk_overlap docs) as [| chunk chunks];
    simpl; rewrite <- ?app_assoc; reflexivity.
Qed.

(** C7, amended. [build_knowledge_base] fails with the load error when the
    input directory is missing or unreadable, and with the encoding error
    when one of the files the loader reads is not UTF-8: a file whose path
    ends in .txt and has no component starting with a dot; the other files
    are not read.  Otherwise the documents are the decoded files in the
    order of the listing and, when they give at least one chunk, the build
    succeeds: the index holds what was persisted before, followed by the
    pieces that the splitter, configured with the constants 1000 (chunk
    length) and 200 (overlap), makes of each loaded document, document after
    document in the order of loading. *)
Theorem C7_build_knowledge_base (self : ConsultingRAG) (w : World) :
  (lookup (knowledge_base_path self) (directories w) = None ->
   fst (build_knowledge_base self w) = inl LoadError) /\
  (forall files,
     lookup (knowledge_base_path self) (directories w) = Some files ->
     (exists path bytes,
        In (path, bytes) files /\ matches_glob path = true /\
        is_visible path = true /\ decode_utf8 bytes = None) ->
     fst (build_knowledge_base self w) = inl EncodingError) /\
  (forall files,
     lookup (knowledge_base_path self) (directories w) = Some files ->
     (forall path bytes,
        In (path, bytes) files -> matches_glob path = true ->
        is_visible path = true -> decode_utf8 bytes <> None) ->
     exists docs, load_files files = inr docs /\ loaded_from docs files) /\
  (forall files docs,
     lookup (knowledge_base_path self) (directories w) = Some files ->
     load_files files = inr docs ->
     flat_map
       (fun d => map (fun text => mkDocument text (source d))
                     (split_text 1000 200 (page_content d)))
       docs <> [] ->
     exists db,
       fst (build_knowledge_base self w) =
         inr (mkConsultingRAG (knowledge_base_path self) (Some db)
                              (embeddings self)) /\
       map fst (collection db) =
         (map fst (persisted "./chroma_db" w)
          ++ flat_map
               (fun d => map (fun text => mkDocument text (source d))
                             (split_text 1000 200 (page_content d)))
               docs)%list).
Proof.
  rewrite build_knowledge_base_run.
  split; [| split; [| split]].
  - intros ->. reflexivity.
  - intros files -> (path & bytes & Hin & Hglob & Hvis & Hdec).
    rewrite (load_files_undecodable files); [reflexivity |].
    exists path, bytes. split; [exact Hin |]. split; [| exact Hdec].
    apply selected_both. auto.
  - intros files _ Hgood.
    apply load_files_decodable.
    intros path bytes Hin Hsel. apply selected_both in Hsel.
    destruct Hsel as [Hglob Hvis]. now apply (Hgood path bytes).
  - intros files docs -> ->.
    fold (split_documents 1000 200 docs).
    change (split_documents chunk_size chunk_overlap docs)
      with (split_documents 1000 200 docs).
    destruct (split_documents 1000 200 docs) as [| chunk chunks] eqn:Hchunks.
    + intros Hnonempty. now contradiction Hnonempty.
    + intros _. eexists. split; [reflexivity |].
      simpl. rewrite map_app. f_equal.
      simpl. rewrite map_map. simpl. now rewrite map_id.
Qed.

(** C8. A request whose challenge is empty is answered by the error message
    alone: nothing is searched, composed or sent to the generation service. *)
Theorem C8_empty_challenge_rejected (rag : ConsultingRAG) (f : Fields) (w : World) :
  challenge f = EmptyString ->
  on_generate rag f w =
    (inr tt,
     mkWorld (directories w) (stores w)
       (trace w
        ++ [EvStError "Please describe the challenge before generating a brief."])) /\
  filter (fun ev => is_search ev || is_generation ev) (trace (snd (on_generate rag f w)))
    = filter (fun ev => is_search ev || is_generation ev) (trace w).
Proof.
  intros Hempty. unfold on_generate. rewrite Hempty. simpl.
  split; [reflexivity |].
  rewrite filter_app. simpl. apply app_nil_r.
Qed.

(** ** The index, once set, stays *)

Lemma step_keeps_vectordb (op : Op) (self : ConsultingRAG) (w : World) :
  vectordb self <> None -> vectordb (fst (step op self w)) <> None.
Proof.
  intros Hready. destruct op as [| | query k]; simpl.
  - rewrite build_knowledge_base_run.
    destruct (lookup _ _) as [files |]; [| exact Hready].
    destruct (load_files files); [exact Hready |].
    destruct (split_documents _ _ _); [exact Hready | discriminate].
  - rewrite load_existing_db_run. discriminate.
  - exact Hready.
Qed.

Lemma run_keeps_vectordb (ops : list Op) :
  forall (self : ConsultingRAG) (w : World),
    vectordb self <> None -> vectordb (fst (run ops self w)) <> None.
Proof.
  induction ops as [| op rest IH]; intros self w Hready; simpl.
  - exact Hready.
  - pose proof (step_keeps_vectordb op self w Hready) as Hstep.
    destruct (step op self w) as [self' w']. apply IH. exact Hstep.
Qed.

Lemma build_sets_vectordb (self self' : ConsultingRAG) (w w' : World) :
  build_knowledge_base self w = (inr self', w') -> vectordb self' <> None.
Proof.
  rewrite build_knowledge_base_run.
  destruct (lookup _ _) as [files |]; [| discriminate].
  destruct (load_files files); [discriminate |].
  destruct (split_documents _ _ _); [discriminate |].
  intros Heq. injection Heq as <- _. discriminate.
Qed.

Lemma load_sets_vectordb (self self' : ConsultingRAG) (w w' : World) :
  load_existing_db self w = (inr self', w') -> vectordb self' <> None.
Proof.
  rewrite load_existing_db_run.
  intros Heq. injection Heq as <- _. discriminate.
Qed.

(** The retriever that [app.py] keeps holds an index. *)
Lemma load_rag_system_sets_vectordb (rag : ConsultingRAG) (w w' : World) :
  load_rag_system w = (inr rag, w') -> vectordb rag <> None.
Proof.
  unfold load_rag_system, try_except.
  destruct (load_existing_db (init "./knowledge_base") w) as [[e | loaded] w1] eqn:Hload.
  - intros Hbuild. exact (build_sets_vectordb _ _ _ _ Hbuild).
  - intros Heq. injection Heq as <- <-. exact (load_sets_vectordb _ _ _ _ Hload).
Qed.

(** C9. After a successful [build_knowledge_base] or [load_existing_db],
    whatever sequence of builds, loads and queries follows (failed ones
    included), the retriever still holds an index, and a query on it does not
    fail with the not-initialized error. *)
Theorem C9_vectordb_stays_set (self0 self1 : ConsultingRAG) (w0 w1 : World)
  (ops : list Op) :
  build_knowledge_base self0 w0 = (inr self1, w1) \/
  load_existing_db self0 w0 = (inr self1, w1) ->
  vectordb (fst (run ops self1 w1)) <> None /\
  forall query k,
    fst (get_relevant_frameworks (fst (run ops self1 w1)) query k (snd (run ops self1 w1)))
      <> inl NotReadyError /\
    exists context,
      fst (get_relevant_frameworks (fst (run ops self1 w1)) query k
             (snd (run ops self1 w1))) = inr context.
Proof.
  intros Hstart.
  assert (Hready : vectordb self1 <> None).
  { destruct Hstart as [Hbuild | Hload].
    - exact (build_sets_vectordb _ _ _ _ Hbuild).
    - exact (load_sets_vectordb _ _ _ _ Hload). }
  pose proof (run_keeps_vectordb ops self1 w1 Hready) as Hkept.
  split; [exact Hkept |].
  intros query k.
  destruct (vectordb (fst (run ops self1 w1))) as [db |] eqn:Hdb; [| contradiction].
  rewrite (get_relevant_frameworks_ready _ db query k _ Hdb). simpl.
  split; [discriminate | eexists; reflexivity].
Qed.

(** ** Constraints and retrieval *)

(** C10. Two requests that agree on engagement type, industry and challenge
    give the same retrieval query, hence the same search, the same retrieved
    chunks and the same context, whatever their constraints; over the whole
    handler the searches recorded are the same. *)
Theorem C10_constraints_do_not_reach_retrieval (rag : ConsultingRAG)
  (f1 f2 : Fields) (w : World) :
  engagement_type f1 = engagement_type f2 ->
  industry f1 = industry f2 ->
  challenge f1 = challenge f2 ->
  query_of f1 = query_of f2 /\
  relevant_docs rag (query_of f1) 3 w = relevant_docs rag (query_of f2) 3 w /\
  get_relevant_frameworks rag (query_of f1) 3 w
    = get_relevant_frameworks rag (query_of f2) 3 w /\
  filter is_search (trace (snd (on_generate rag f1 w)))
    = filter is_search (trace (snd (on_generate rag f2 w))).
Proof.
  intros Heng Hind Hcha.
  assert (Hquery : query_of f1 = query_of f2)
    by (unfold query_of; now rewrite Heng, Hind, Hcha).
  split; [exact Hquery |]. rewrite Hquery.
  split; [reflexivity |]. split; [reflexivity |].
  destruct (truthy (challenge f1)) eqn:Htruthy.
  - destruct (vectordb rag) as [db |] eqn:Hdb.
    + assert (Htruthy2 : truthy (challenge f2) = true) by now rewrite <- Hcha.
      destruct (on_generate_ready rag db f1 w Hdb Htruthy) as (rest1 & -> & Hrest1).
      destruct (on_generate_ready rag db f2 w Hdb Htruthy2) as (rest2 & -> & Hrest2).
      rewrite Hquery, !filter_app. simpl.
      destruct Hrest1 as [-> | [body1 ->]], Hrest2 as [-> | [body2 ->]]; reflexivity.
    + unfold on_generate. rewrite <- Hcha, Htruthy. simpl. unfold bind.
      rewrite !(get_relevant_frameworks_not_ready rag _ 3 w Hdb). reflexivity.
  - unfold on_generate. rewrite <- Hcha, Htruthy. reflexivity.
Qed.

(** * Further properties of the code *)

(** ** The request handler *)

(** An accepted request on a retriever that holds an index, case by case on
    the answer of the generation service. *)
Lemma on_generate_accepted (rag : ConsultingRAG) (db : Chroma) (f : Fields) (w : World) :
  vectordb rag = Some db ->
  truthy (challenge f) = true ->
  on_generate rag f w =
    let search := EvSimilaritySearch (query_of f) 3 in
    let req :=
      mkRequest "claude-sonnet-4-20250514" 4000
        [("user", compose f (map fst (nearest db (query_of f) 3)))] in
    match messages_create (trace w ++ [search])%list req with
    | inl e =>
        (inl e,
         mkWorld (directories w) (stores w)
           (trace w ++ [search; EvMessagesCreate req]))
    | inr response =>
        match content response with
        | [] =>
            (inl IndexError,
             mkWorld (directories w) (stores w)
               (trace w ++ [search; EvMessagesCreate req]))
        | text :: _ =>
            (inr tt,
             mkWorld (directories w) (stores w)
               (trace w ++ [search; EvMessagesCreate req; EvStMarkdown text]))
        end
    end.
Proof.
  intros Hdb Hchallenge. unfold on_generate. rewrite Hchallenge. simpl.
  unfold bind at 1.
  rewrite (get_relevant_frameworks_ready rag db (query_of f) 3 w Hdb).
  unfold bind. rewrite generate_run. simpl.
  fold (compose f (map fst (nearest db (query_of f) 3))).
  destruct (messages_create _ _) as [e | response].
  - rewrite <- app_assoc. reflexivity.
  - destruct (content response) as [| text more].
    + rewrite <- app_assoc. reflexivity.
    + unfold log. simpl. rewrite <- !app_assoc. reflexivity.
Qed.

(** X1. When the retriever holds no index, a request with a challenge fails
    with the not-initialized error of the retriever: nothing is sent to the
    generation service, nothing is displayed and the world is as before. *)
Theorem X1_handler_without_index (rag : ConsultingRAG) (f : Fields) (w : World) :
  vectordb rag = None ->
  truthy (challenge f) = true ->
  on_generate rag f w = (inl (ValueError "Vector database not initialized."), w).
Proof.
  intros Hdb Hchallenge. unfold on_generate. rewrite Hchallenge. simpl.
  unfold bind.
  rewrite (get_relevant_frameworks_not_ready rag (query_of f) 3 w Hdb).
  reflexivity.
Qed.

(** X2. The three outcomes of an accepted request.  When the service
    answers, the text of its first content block is displayed as it is and
    the handler ends normally.  When the service fails, the handler fails
    with the same exception and displays nothing.  When the answer has no
    content block, the subscript raises [IndexError] after the request was
    sent, and nothing is displayed. *)
Theorem X2_handler_outcomes (rag : ConsultingRAG) (db : Chroma) (f : Fields) (w : World) :
  vectordb rag = Some db ->
  truthy (challenge f) = true ->
  let search := EvSimilaritySearch (query_of f) 3 in
  let req :=
    mkRequest "claude-sonnet-4-20250514" 4000
      [("user", compose f (map fst (nearest db (query_of f) 3)))] in
  (forall text more,
     messages_create (trace w ++ [search])%list req = inr (mkMessage (text :: more)) ->
     on_generate rag f w =
       (inr tt,
        mkWorld (directories w) (stores w)
          (trace w ++ [search; EvMessagesCreate req; EvStMarkdown text]))) /\
  (forall e,
     messages_create (trace w ++ [search])%list req = inl e ->
     on_generate rag f w =
       (inl e,
        mkWorld (directories w) (stores w)
          (trace w ++ [search; EvMessagesCreate req]))) /\
  (messages_create (trace w ++ [search])%list req = inr (mkMessage []) ->
   on_generate rag f w =
     (inl IndexError,
      mkWorld (directories w) (stores w)
        (trace w ++ [search; EvMessagesCreate req]))).
Proof.
  intros Hdb Hchallenge search req.
  rewrite (on_generate_accepted rag db f w Hdb Hchallenge).
  cbv zeta. fold search. fold req.
  split; [| split].
  - intros text more ->. reflexivity.
  - intros e ->. reflexivity.
  - intros ->. reflexivity.
Qed.

(** X3. What one press of the button adds to the record of searches and
    calls of the generation service, for every retriever and every form:
    when the challenge is not empty (blank text included) and the retriever
    holds an index, one search for three chunks followed by one call that
    carries the composed prompt, in this order; otherwise nothing.  So the
    service is never called without a search just before it. *)
Theorem X3_handler_calls (rag : ConsultingRAG) (f : Fields) (w : World) :
  filter (fun ev => is_search ev || is_generation ev)
         (trace (snd (on_generate rag f w))) =
    (filter (fun ev => is_search ev || is_generation ev) (trace w)
     ++ match vectordb rag with
        | Some db =>
            if truthy (challenge f) then
              [EvSimilaritySearch (query_of f) 3;
               EvMessagesCreate
                 (mkRequest "claude-sonnet-4-20250514" 4000
                    [("user", compose f (map fst (nearest db (query_of f) 3)))])]
            else []
        | None => []
        end)%list.
Proof.
  destruct (truthy (challenge f)) eqn:Hchallenge.
  - destruct (vectordb rag) as [db |] eqn:Hdb.
    + rewrite (on_generate_accepted rag db f w Hdb Hchallenge). cbv zeta.
      destruct (messages_create _ _) as [e | response];
        [| destruct (content response) as [| text more]];
        simpl; rewrite !filter_app; reflexivity.
    + unfold on_generate. rewrite Hchallenge. simpl. unfold bind.
      rewrite (get_relevant_frameworks_not_ready rag (query_of f) 3 w Hdb).
      simpl. now rewrite app_nil_r.
  - unfold on_generate. rewrite Hchallenge. simpl.
    rewrite !filter_app. simpl.
    destruct (vectordb rag); reflexivity.
Qed.

(** ** Builds, loads and what they leave behind *)

Lemma load_files_sound (files : list File) (docs : list Document) :
  load_files files = inr docs ->
  forall d, In d docs ->
    exists path bytes,
      In (path, bytes) files /\ selected path = true /\
      source d = path /\ decode_utf8 bytes = Some (page_content d).
Proof.
  revert docs.
  induction files as [| [path0 bytes0] rest IH]; simpl; intros docs Hload d Hin.
  - injection Hload as <-. destruct Hin.
  - destruct (selected path0) eqn:Hsel.
    + destruct (decode_utf8 bytes0) as [text |] eqn:Hdec; [| discriminate].
      destruct (load_files rest) as [e | docs'] eqn:Hrest; [discriminate |].
      injection Hload as <-. destruct Hin as [<- | Hin].
      * exists path0, bytes0. simpl. auto.
      * destruct (IH docs' eq_refl d Hin) as (path & bytes & Hf & Hg & Hs & Hd).
        exists path, bytes. auto.
    + destruct (IH docs Hload d Hin) as (path & bytes & Hf & Hg & Hs & Hd).
      exists path, bytes. auto.
Qed.

Lemma load_files_none_selected (files : list File) :
  (forall path bytes, In (path, bytes) files -> selected path = false) ->
  load_files files = inr [].
Proof.
  induction files as [| [path0 bytes0] rest IH]; intros Hnone; simpl.
  - reflexivity.
  - rewrite (Hnone path0 bytes0) by now left.
    apply IH. intros path bytes Hin. apply (Hnone path bytes). now right.
Qed.

Lemma build_knowledge_base_success (self self' : ConsultingRAG) (w w' : World) :
  build_knowledge_base self w = (inr self', w') ->
  exists files docs chunk chunks,
    lookup (knowledge_base_path self) (directories w) = Some files /\
    load_files files = inr docs /\
    split_documents chunk_size chunk_overlap docs = chunk :: chunks /\
    self' =
      mkConsultingRAG (knowledge_base_path self)
        (Some (mkChroma "./chroma_db"
                 (persisted "./chroma_db" w
                  ++ map (fun d => (d, embed (page_content d))) (chunk :: chunks))))
        (embeddings self) /\
    stores w' =
      ("./chroma_db",
       (persisted "./chroma_db" w
        ++ map (fun d => (d, embed (page_content d))) (chunk :: chunks))%list)
        :: opened "./chroma_db" w.
Proof.
  rewrite build_knowledge_base_run.
  destruct (lookup _ _) as [files |]; [| discriminate].
  destruct (load_files files) as [e | docs] eqn:Hload; [discriminate |].
  destruct (split_documents chunk_size chunk_overlap docs) as [| chunk chunks]
    eqn:Hchunks; [discriminate |].
  intros Heq. injection Heq as <- <-.
  exists files, docs, chunk, chunks. auto.
Qed.

(** X4. [load_rag_system] never builds.  The load does not fail when
    nothing is persisted, so the fallback of the [try] is not taken: in every
    world the result is the retriever of [load_existing_db], holding the
    persisted index, or a new and empty one when there is none.  The
    knowledge base directory is not read and no embedding is computed; the
    only interaction recorded is the opening of ./chroma_db. *)
Theorem X4_load_rag_system_never_builds (w : World) :
  load_rag_system w =
    (inr (mkConsultingRAG "./knowledge_base"
            (Some (mkChroma "./chroma_db" (persisted "./chroma_db" w)))
            "all-MiniLM-L6-v2"),
     mkWorld (directories w) (opened "./chroma_db" w)
       (trace w ++ [EvOpen "./chroma_db"])).
Proof.
  unfold load_rag_system, try_except.
  rewrite (load_existing_db_run (init "./knowledge_base") w). reflexivity.
Qed.

(** X5. A build over a knowledge base directory in which the loader reads
    no file (an empty directory, or one with hidden files and files of other
    extensions only) fails with the [ValueError] with which the vector store
    refuses an empty list of chunks; the retriever keeps the index it
    held, or none. *)
Theorem X5_build_without_text_file (self : ConsultingRAG) (w : World)
  (files : list File) :
  lookup (knowledge_base_path self) (directories w) = Some files ->
  (forall path bytes, In (path, bytes) files -> selected path = false) ->
  fst (build_knowledge_base self w) = inl (ValueError empty_index_message) /\
  fst (step OpBuild self w) = self.
Proof.
  intros Hfiles Hnone. simpl.
  rewrite build_knowledge_base_run, Hfiles.
  rewrite (load_files_none_selected files Hnone). simpl.
  split; reflexivity.
Qed.

(** X6. The retriever that [load_rag_system] returns holds an index: a later
    query for k >= 1 chunks, in any world, passes the guard, performs one
    search and returns a context. *)
Theorem X6_load_rag_system_ready (rag : ConsultingRAG) (w w' : World)
  (query : string) (k : nat) (w'' : World) :
  load_rag_system w = (inr rag, w') ->
  1 <= k ->
  exists db,
    vectordb rag = Some db /\
    get_relevant_frameworks rag query k w'' =
      (inr (String.concat separator
              (map page_content (map fst (nearest db query k)))),
       mkWorld (directories w'') (stores w'')
         (trace w'' ++ [EvSimilaritySearch query k])).
Proof.
  intros Hrun _.
  pose proof (load_rag_system_sets_vectordb rag w w' Hrun) as Hready.
  destruct (vectordb rag) as [db |] eqn:Hdb; [| contradiction].
  exists db. split; [reflexivity |].
  exact (get_relevant_frameworks_ready rag db query k w'' Hdb).
Qed.

(** X7. Build, then load: the index a build persists is the one a later
    load reopens, for any retriever, whatever its knowledge base path (the
    persisted location is the same for all).  The loaded retriever holds the
    same index as the one that was built, and gives the same answers. *)
Theorem X7_build_then_load (self self' other : ConsultingRAG) (w w' : World) :
  build_knowledge_base self w = (inr self', w') ->
  exists other' w'',
    load_existing_db other w' = (inr other', w'') /\
    vectordb other' = vectordb self' /\
    knowledge_base_path other' = knowledge_base_path other /\
    forall query k w3,
      fst (get_relevant_frameworks other' query k w3)
        = fst (get_relevant_frameworks self' query k w3).
Proof.
  intros Hbuild.
  destruct (build_knowledge_base_success self self' w w' Hbuild)
    as (files & docs & chunk & chunks & _ & _ & _ & -> & Hstores).
  assert (Hstore : lookup "./chroma_db" (stores w') =
                   Some (persisted "./chroma_db" w
                         ++ map (fun d => (d, embed (page_content d)))
                                (chunk :: chunks))%list)
    by (rewrite Hstores; reflexivity).
  rewrite (load_existing_db_present other w' _ Hstore).
  eexists. eexists. split; [reflexivity |].
  split; [reflexivity |]. split; [reflexivity |].
  intros query k w3.
  unfold get_relevant_frameworks, relevant_docs, bind. reflexivity.
Qed.

Lemma step_frame (op : Op) (self : ConsultingRAG) (w : World) :
  knowledge_base_path (fst (step op self w)) = knowledge_base_path self /\
  embeddings (fst (step op self w)) = embeddings self /\
  directories (snd (step op self w)) = directories w /\
  exists events, trace (snd (step op self w)) = (trace w ++ events)%list.
Proof.
  destruct op as [| | query k]; simpl.
  - rewrite build_knowledge_base_run.
    destruct (lookup _ _) as [files |].
    + destruct (load_files files);
        [| destruct (split_documents _ _ _)];
        simpl; repeat split; eexists; reflexivity.
    + simpl. repeat split. eexists; reflexivity.
  - rewrite load_existing_db_run. simpl.
    repeat split. eexists; reflexivity.
  - destruct (vectordb self) as [db |] eqn:Hdb.
    + rewrite (get_relevant_frameworks_ready self db query k w Hdb). simpl.
      repeat split. eexists; reflexivity.
    + rewrite (get_relevant_frameworks_not_ready self query k w Hdb). simpl.
      repeat split. exists []. now rewrite app_nil_r.
Qed.

(** X8. No sequence of builds, loads and queries changes the retriever's
    knowledge base path or its embedding model, none of them modifies the
    input directories, and the record of interactions only grows. *)
Theorem X8_run_frame (ops : list Op) (self : ConsultingRAG) (w : World) :
  knowledge_base_path (fst (run ops self w)) = knowledge_base_path self /\
  embeddings (fst (run ops self w)) = embeddings self /\
  directories (snd (run ops self w)) = directories w /\
  exists events, trace (snd (run ops self w)) = (trace w ++ events)%list.
Proof.
  revert self w.
  induction ops as [| op rest IH]; intros self w; simpl.
  - repeat split. exists []. now rewrite app_nil_r.
  - destruct (step_frame op self w) as (Hpath & Hemb & Hdirs & events1 & Htrace).
    destruct (step op self w) as [self1 w1]. simpl in *.
    destruct (IH self1 w1) as (Hpath' & Hemb' & Hdirs' & events2 & Htrace').
    rewrite Hpath', Hemb', Hdirs', Htrace', Htrace.
    repeat split; try assumption.
    exists (events1 ++ events2)%list. now rewrite app_assoc.
Qed.

(** X9. Provenance of what a query for k >= 1 chunks returns right after a
    build.
    A build adds to the index already persisted at ./chroma_db, so every
    retrieved chunk either was in that index before the build, or comes
    from a file of the knowledge base directory that the loader reads (a
    path ending in .txt, no hidden component): its source is the path of
    that file and its text is one of the pieces into which the splitter,
    with chunk length 1000 and overlap 200, cut the decoded content of that
    file. *)
Theorem X9_retrieved_chunks_come_from_files
  (self self' : ConsultingRAG) (w w' : World) (files : list File)
  (query : string) (k : nat) (docs : list Document) (d : Document) :
  lookup (knowledge_base_path self) (directories w) = Some files ->
  build_knowledge_base self w = (inr self', w') ->
  1 <= k ->
  fst (relevant_docs self' query k w') = inr docs ->
  In d docs ->
  In d (map fst (persisted "./chroma_db" w)) \/
  exists path bytes text,
    In (path, bytes) files /\
    matches_glob path = true /\
    is_visible path = true /\
    source d = path /\
    decode_utf8 bytes = Some text /\
    In (page_content d) (split_text 1000 200 text).
Proof.
  intros Hfiles Hbuild _ Hdocs Hin.
  destruct (build_knowledge_base_success self self' w w' Hbuild)
    as (files' & loaded & chunk & chunks & Hfiles' & Hload & Hchunks & -> & _).
  rewrite Hfiles in Hfiles'. injection Hfiles' as <-.
  unfold relevant_docs in Hdocs. simpl in Hdocs. injection Hdocs as <-.
  apply in_map_iff in Hin. destruct Hin as (hit & <- & Hhit).
  apply (proj2 (proj2 (nearest_spec _ query k))) in Hhit. simpl collection in Hhit.
  apply in_app_or in Hhit. destruct Hhit as [Hold | Hnew].
  - left. now apply in_map.
  - right.
    change (In hit (map (fun d => (d, embed (page_content d))) (chunk :: chunks)))
      in Hnew.
    rewrite <- Hchunks in Hnew.
    apply in_map_iff in Hnew. destruct Hnew as (piece & <- & Hpiece).
    unfold split_documents in Hpiece.
    apply in_flat_map in Hpiece. destruct Hpiece as (doc & Hdoc & Htext).
    apply in_map_iff in Htext. destruct Htext as (text & <- & Htext).
    destruct (load_files_sound files loaded Hload doc Hdoc)
      as (path & bytes & Hfile & Hsel & Hsource & Hdec).
    apply selected_both in Hsel. destruct Hsel as [Hglob Hvis].
    exists path, bytes, (page_content doc). simpl.
    split; [exact Hfile |]. split; [exact Hglob |]. split; [exact Hvis |].
    split; [exact Hsource |]. split; [exact Hdec | exact Htext].
Qed.

(** ** The self-test of rag_system.py *)

Lemma char_count_app (a b : string) :
  char_count (a ++ b) = char_count a + char_count b.
Proof.
  induction a as [| c a IH]; simpl; [reflexivity |].
  destruct (is_continuation c); simpl; now rewrite IH.
Qed.

Lemma char_count_take_chars (n : nat) (s : string) :
  char_count (take_chars n s) <= n.
Proof.
  revert n. induction s as [| c s IH]; intros n; simpl; [lia |].
  destruct (is_continuation c) eqn:Hc; simpl.
  - rewrite Hc. apply IH.
  - destruct n as [| n]; simpl; [lia |].
    rewrite Hc. specialize (IH n). lia.
Qed.

Lemma take_chars_all (n : nat) (s : string) :
  char_count s <= n -> take_chars n s = s.
Proof.
  revert n. induction s as [| c s IH]; intros n; simpl; [reflexivity |].
  destruct (is_continuation c).
  - intros Hle. now rewrite IH.
  - destruct n as [| n]; [lia |].
    intros Hle. rewrite IH; [reflexivity | lia].
Qed.

(** X10. [test_rag] fails exactly when its build fails, with the build's
    exception: once the build has succeeded the query finds an index.
    Otherwise the excerpt it prints is the first 500 characters of the
    context retrieved for two chunks, followed by an ellipsis and a
    newline: at most 504 characters, and the whole context when that has at
    most 500. *)
Theorem X10_test_rag (w : World) :
  match fst (test_rag w) with
  | inl e =>
      fst (build_knowledge_base (init "./knowledge_base") w) = inl e
  | inr excerpt =>
      exists rag w' context,
        build_knowledge_base (init "./knowledge_base") w = (inr rag, w') /\
        fst (get_relevant_frameworks rag
               "How do I handle a post-merger integration?" 2 w') = inr context /\
        excerpt = take_chars 500 context ++ "...
" /\
        char_count excerpt <= 504 /\
        (500 < char_count context \/ excerpt = context ++ "...
")
  end.
Proof.
  unfold test_rag, bind.
  destruct (build_knowledge_base (init "./knowledge_base") w) as [[e | rag] w'] eqn:Hbuild.
  - reflexivity.
  - pose proof (build_sets_vectordb _ _ _ _ Hbuild) as Hready.
    destruct (vectordb rag) as [db |] eqn:Hdb; [| contradiction].
    rewrite (get_relevant_frameworks_ready rag db _ 2 w' Hdb). simpl.
    exists rag, w',
      (String.concat separator
         (map page_content
            (map fst (nearest db "How do I handle a post-merger integration?" 2)))).
    rewrite (get_relevant_frameworks_ready rag db _ 2 w' Hdb).
    split; [reflexivity |]. split; [reflexivity |]. split; [reflexivity |].
    split.
    + rewrite char_count_app.
      pose proof (char_count_take_chars 500
                    (String.concat separator
                       (map page_content (map fst (nearest db
                          "How do I handle a post-merger integration?" 2))))).
      change (char_count "...
") with 4. lia.
    + destruct (Nat.le_gt_cases
                  (char_count
                     (String.concat separator
                        (map page_content (map fst (nearest db
                           "How do I handle a post-merger integration?" 2)))))
                  500) as [Hshort | Hlong].
      * right. now rewrite take_chars_all.
      * left. exact Hlong.
Qed.

(** ** The sample scenarios and the form *)

Lemma index_of_None (x : string) (l : list string) :
  index_of x l = None <-> ~ In x l.
Proof.
  induction l as [| y rest IH]; simpl.
  - split; [intros _ [] | reflexivity].
  - destruct (String.eqb_spec y x) as [-> | Hneq].
    + split; [discriminate | intros Hnot; exfalso; apply Hnot; now left].
    + destruct (index_of x rest) as [i |].
      * split; [discriminate |].
        intros Hnot. exfalso.
        assert (Hrest : ~ In x rest) by (intros Hin; apply Hnot; now right).
        apply (proj2 IH) in Hrest. discriminate Hrest.
      * split; [| reflexivity].
        intros _ [Heq | Hin]; [contradiction |].
        now apply (proj1 IH).
Qed.

Lemma index_of_Some (x : string) (l : list string) (i : nat) :
  index_of x l = Some i -> i < length l /\ nth i l EmptyString = x.
Proof.
  revert i. induction l as [| y rest IH]; simpl; intros i; [discriminate |].
  destruct (String.eqb_spec y x) as [-> | Hneq].
  - intros Heq. injection Heq as <-. split; [lia | reflexivity].
  - destruct (index_of x rest) as [j |]; [| discriminate].
    intros Heq. injection Heq as <-.
    destruct (IH j eq_refl) as [Hlt Hnth]. split; [lia | exact Hnth].
Qed.

(** X11. The select box of the form.  Computing its index raises (Python's
    [ValueError] from [list.index]) exactly when the session holds an
    engagement type that is not one of the five options.  Otherwise the
    index is within the options, it is 0 when the session holds no
    engagement type, and it designates the engagement type of the session
    when there is one. *)
Theorem X11_selectbox_index (session : Session) :
  (selectbox_index session = None <->
   exists value,
     lookup "engagement_type" session = Some value /\
     ~ In value engagement_options) /\
  (forall i,
     selectbox_index session = Some i ->
     i < length engagement_options /\
     match lookup "engagement_type" session with
     | Some value => nth i engagement_options EmptyString = value
     | None => i = 0
     end).
Proof.
  unfold selectbox_index.
  destruct (lookup "engagement_type" session) as [value |]; split.
  - rewrite index_of_None. split.
    + intros Hnot. exists value. auto.
    + intros (value' & Heq & Hnot). now injection Heq as <-.
  - intros i. apply index_of_Some.
  - split; [discriminate | intros (value & Heq & _); discriminate].
  - intros i Heq. injection Heq as <-. simpl. split; [lia | reflexivity].
Qed.

(** X12. Pressing the button of a sample scenario fills the form with that
    scenario: for every entry of [sample_scenarios], whatever the session
    held before, the values the four widgets start from are the four fields
    of the entry (so its engagement type is one of the options and computing
    the index does not raise), and its challenge is not empty, so that the
    request it prepares is not rejected. *)
Theorem X12_sample_scenario_fills_form
  (scenario_name : string) (scenario_data : Fields)
  (pressed : string -> bool) (session : Session) :
  In (scenario_name, scenario_data) sample_scenarios ->
  pressed scenario_name = true ->
  (forall other, pressed other = true -> other = scenario_name) ->
  form_defaults (sidebar pressed sample_scenarios session) = Some scenario_data /\
  truthy (challenge scenario_data) = true.
Proof.
  intros Hin Hpressed Honly.
  assert (Hothers : forall other, other <> scenario_name -> pressed other = false).
  { intros other Hneq. destruct (pressed other) eqn:Hp; [| reflexivity].
    exfalso. apply Hneq. now apply Honly. }
  unfold sample_scenarios in *. simpl in Hin.
  destruct Hin as [Heq | [Heq | [Heq | []]]]; injection Heq as <- <-;
    unfold sidebar;
    repeat match goal with
           | |- context [pressed ?name] =>
               first [ rewrite Hpressed
                     | rewrite (Hothers name) by discriminate ]
           end;
    split; reflexivity.
Qed.

(** ** The name of the downloaded file *)

Lemma map_chars_list (f : ascii -> ascii) (s : string) :
  list_ascii_of_string (map_chars f s) = map f (list_ascii_of_string s).
Proof.
  induction s as [| c s IH]; simpl; [reflexivity | now rewrite IH].
Qed.

Lemma map_chars_length (f : ascii -> ascii) (s : string) :
  String.length (map_chars f s) = String.length s.
Proof.
  induction s as [| c s IH]; simpl; [reflexivity | now rewrite IH].
Qed.

Lemma stem_char (c : ascii) :
  lower_char (if Ascii.eqb c " " then "_"%char else c) <> " "%char /\
  is_upper (lower_char (if Ascii.eqb c " " then "_"%char else c)) = false.
Proof.
  destruct c as [[] [] [] [] [] [] [] []]; vm_compute; split;
    first [ discriminate | reflexivity ].
Qed.

(** X13. The name of the downloaded file, for an industry written in ASCII:
    the fixed prefix, a stem and the extension .txt.  The stem has the
    length of the industry and contains neither a space nor an upper-case
    letter; nothing else is cleaned, and in particular a slash of the
    industry is still in the file name. *)
Theorem X13_download_file_name (industry : string) :
  is_ascii industry = true ->
  exists stem,
    download_file_name industry = "strategy_brief_" ++ stem ++ ".txt" /\
    String.length stem = String.length industry /\
    (forall c, In c (list_ascii_of_string stem) ->
       c <> " "%char /\ is_upper c = false) /\
    (In "/"%char (list_ascii_of_string industry) ->
     In "/"%char (list_ascii_of_string stem)).
Proof.
  intros _. exists (lower (replace " " "_" industry)).
  split; [reflexivity |]. unfold lower, replace.
  split; [now rewrite !map_chars_length |].
  rewrite !map_chars_list, map_map.
  split.
  - intros c Hin. apply in_map_iff in Hin. destruct Hin as (c0 & <- & _).
    apply stem_char.
  - intros Hin.
    apply (in_map (fun c => lower_char (if Ascii.eqb c " " then "_"%char else c)))
      in Hin.
    exact Hin.
Qed.

End Properties.

(** * The properties at work on the concrete instance *)

(** Build on a single document, then ask for the nearest chunk. *)
Example scenario_build_then_query :
  match build_knowledge_base (ext := demo) (init "./knowledge_base") scenario_world with
  | (inr rag, w) =>
      fst (get_relevant_frameworks rag "post-merger integration" 1 w)
  | (inl e, _) => inl e
  end = inr "M&A playbook: align on day-1 readiness".
Proof. reflexivity. Qed.

(** With nothing persisted, the application starts on an empty index and
    does not read the knowledge base. *)
Example load_rag_system_on_a_fresh_disk :
  load_rag_system (ext := demo) kb_world =
    (inr (mkConsultingRAG (ext := demo) "./knowledge_base"
            (Some (mkChroma (ext := demo) "./chroma_db" [])) "all-MiniLM-L6-v2"),
     mkWorld (ext := demo) [("./knowledge_base", kb_files)]
       [("./chroma_db", [])] [EvOpen "./chroma_db"]).
Proof. reflexivity. Qed.

(** Different constraints give different prompts. *)
Example constraints_reach_the_prompt :
  compose demo_fields [] <> compose demo_fields' [].
Proof.
  intros Heq. apply (f_equal String.length) in Heq. vm_compute in Heq. discriminate Heq.
Qed.

(** C1 on a search for two chunks in the three-chunk index. *)
Lemma C1_witness :
  exists hits : list (Document * Z),
    fst (relevant_docs (ext := demo) demo_rag "post-merger integration" 2 empty_world)
      = inr (map fst hits) /\
    fst (get_relevant_frameworks (ext := demo) demo_rag "post-merger integration" 2
           empty_world)
      = inr (String.concat separator (map page_content (map fst hits))) /\
    length (map fst hits) <= 2 /\
    (forall i j a b, i <= j ->
       nth_error hits i = Some a -> nth_error hits j = Some b ->
       (Z.abs (23 - snd a) <= Z.abs (23 - snd b))%Z) /\
    (forall hit, In hit hits -> In hit demo_index).
Proof.
  apply (C1_query_at_most_k_nearest_first (ext := demo) demo_rag demo_db
           "post-merger integration" 2 empty_world).
  - reflexivity.
  - lia.
Defined.

(** C3 on a load with nothing persisted, and a load of the persisted index. *)
Lemma C3_witness :
  (exists self' w',
     load_existing_db (ext := demo) (init "./knowledge_base") kb_world
       = (inr self', w') /\
     vectordb self' = Some (mkChroma (ext := demo) "./chroma_db" []) /\
     trace w' = (trace kb_world ++ [EvOpen "./chroma_db"])%list) /\
  exists self' w',
    load_existing_db (ext := demo) (init "./knowledge_base") stored_world
      = (inr self', w') /\
    vectordb self' = Some demo_db /\
    trace w' = [EvOpen "./chroma_db"] /\
    stores w' = stores stored_world /\
    forall query k w'',
      fst (get_relevant_frameworks self' query k w'') =
        inr (String.concat separator
               (map page_content (map fst (nearest demo_db query k)))).
Proof.
  split.
  - apply (proj1 (C3_load_existing_db (ext := demo) (init "./knowledge_base") kb_world)).
    reflexivity.
  - apply (proj2 (C3_load_existing_db (ext := demo) (init "./knowledge_base")
                    stored_world) demo_index).
    reflexivity.
Defined.

(** C4 on one accepted request. *)
Lemma C4_witness :
  exists rest,
    trace (snd (on_generate (ext := demo) demo_rag demo_fields empty_world)) =
      (trace empty_world
       ++ [EvSimilaritySearch (query_of demo_fields) 3;
           EvMessagesCreate
             (mkRequest "claude-sonnet-4-20250514" 4000
                [("user",
                  compose demo_fields
                    (map fst (nearest (ext := demo) demo_db (query_of demo_fields) 3)))])]
       ++ rest)%list /\
    forallb (fun ev => negb (is_search ev || is_generation ev)) rest = true.
Proof.
  apply (proj2 (C4_compose_fixed_template (ext := demo))
           demo_rag demo_db demo_fields empty_world).
  - reflexivity.
  - reflexivity.
Defined.

(** C5 on two chunks with the same text and different sources. *)
Lemma C5_witness :
  compose demo_fields [mkDocument "Gap analysis" "kb/gap.txt"]
    = compose demo_fields [mkDocument "Gap analysis" "archive/gap-2019.txt"].
Proof.
  apply C5_compose_pure.
  - reflexivity.
  - reflexivity.
Defined.

(** C6 on a prompt the service answers and one it refuses. *)
Lemma C6_witness :
  snd (generate (ext := demo) "Analyse this." empty_world) =
    mkWorld (ext := demo) [] []
      [EvMessagesCreate
         (mkRequest "claude-sonnet-4-20250514" 4000 [("user", "Analyse this.")])] /\
  fst (generate (ext := demo) EmptyString empty_world)
    = inl (ServiceError "invalid_request_error") /\
  fst (generate (ext := demo) "Analyse this." empty_world) = inr "STRATEGY BRIEF".
Proof.
  pose proof (C6_generate_single_call (ext := demo) "Analyse this." empty_world) as Hok.
  pose proof (C6_generate_single_call (ext := demo) EmptyString empty_world) as Herr.
  cbv zeta in Hok, Herr.
  split; [exact (proj1 Hok) |]. split.
  - apply (proj1 (proj2 Herr)). reflexivity.
  - apply (proj2 (proj2 Hok) "STRATEGY BRIEF" []). reflexivity.
Defined.

(** C7 on a missing directory, a text file that is not UTF-8, and a
    successful build beside a note and a hidden draft that are not UTF-8. *)
Lemma C7_witness :
  fst (build_knowledge_base (ext := demo) (init "./knowledge_base") empty_world)
    = inl LoadError /\
  fst (build_knowledge_base (ext := demo) (init "./knowledge_base") bad_world)
    = inl EncodingError /\
  (exists docs,
     load_files (ext := demo) kb_files = inr docs /\
     loaded_from (ext := demo) docs kb_files) /\
  exists db,
    fst (build_knowledge_base (ext := demo) (init "./knowledge_base") kb_world)
      = inr (mkConsultingRAG "./knowledge_base" (Some db) "all-MiniLM-L6-v2") /\
    map fst (collection db) =
      (map fst (persisted "./chroma_db" kb_world)
       ++ flat_map
            (fun d => map (fun text => mkDocument text (source d))
                          (window_split 1000 200 (page_content d)))
            [mkDocument "Gap analysis" "kb/gap.txt";
             mkDocument "RACI matrix: clarify roles" "kb/raci.txt"])%list.
Proof.
  split; [| split; [| split]].
  - apply (proj1 (C7_build_knowledge_base (ext := demo) (init "./knowledge_base")
                    empty_world)).
    reflexivity.
  - apply (proj1 (proj2 (C7_build_knowledge_base (ext := demo) (init "./knowledge_base")
                           bad_world)) bad_files).
    + reflexivity.
    + exists "kb/raci.txt", [Byte.x52; Byte.xc3; Byte.x28].
      split; [right; left; reflexivity |]. repeat split; reflexivity.
  - apply (proj1 (proj2 (proj2 (C7_build_knowledge_base (ext := demo)
                                  (init "./knowledge_base") kb_world))) kb_files).
    + reflexivity.
    + intros path bytes Hin Hglob Hvis. simpl in Hin.
      destruct Hin as [Heq | [Heq | [Heq | [Heq | []]]]]; injection Heq as <- <-;
        first [ vm_compute in Hglob; discriminate Hglob
              | vm_compute in Hvis; discriminate Hvis
              | vm_compute; discriminate ].
  - apply (proj2 (proj2 (proj2 (C7_build_knowledge_base (ext := demo)
                                  (init "./knowledge_base") kb_world))) kb_files).
    + reflexivity.
    + reflexivity.
    + vm_compute. discriminate.
Defined.

(** C8 on a request with an empty challenge. *)
Lemma C8_witness :
  on_generate (ext := demo) demo_rag blank_fields empty_world =
    (inr tt,
     mkWorld (ext := demo) [] []
       ([] ++ [EvStError "Please describe the challenge before generating a brief."])) /\
  filter (fun ev => is_search ev || is_generation ev)
         (trace (snd (on_generate (ext := demo) demo_rag blank_fields empty_world)))
    = filter (fun ev => is_search ev || is_generation ev) [].
Proof.
  apply (C8_empty_challenge_rejected (ext := demo) demo_rag blank_fields empty_world).
  reflexivity.
Defined.

(** C9 on a build followed by a query, a load, a build and a query. *)
Lemma C9_witness :
  vectordb (fst (run (ext := demo) demo_ops built_rag built_world)) <> None /\
  forall query k,
    fst (get_relevant_frameworks
           (fst (run (ext := demo) demo_ops built_rag built_world)) query k
           (snd (run (ext := demo) demo_ops built_rag built_world)))
      <> inl NotReadyError /\
    exists context,
      fst (get_relevant_frameworks
             (fst (run (ext := demo) demo_ops built_rag built_world)) query k
             (snd (run (ext := demo) demo_ops built_rag built_world)))
        = inr context.
Proof.
  apply (C9_vectordb_stays_set (ext := demo) (init "./knowledge_base") built_rag
           kb_world built_world demo_ops).
  left. reflexivity.
Defined.

(** C10 on two requests that differ in their constraints only. *)
Lemma C10_witness :
  query_of demo_fields = query_of demo_fields' /\
  relevant_docs (ext := demo) demo_rag (query_of demo_fields) 3 empty_world
    = relevant_docs (ext := demo) demo_rag (query_of demo_fields') 3 empty_world /\
  get_relevant_frameworks (ext := demo) demo_rag (query_of demo_fields) 3 empty_world
    = get_relevant_frameworks (ext := demo) demo_rag (query_of demo_fields') 3 empty_world /\
  filter is_search
         (trace (snd (on_generate (ext := demo) demo_rag demo_fields empty_world)))
    = filter is_search
             (trace (snd (on_generate (ext := demo) demo_rag demo_fields' empty_world))).
Proof.
  apply (C10_constraints_do_not_reach_retrieval (ext := demo) demo_rag
           demo_fields demo_fields' empty_world).
  - reflexivity.
  - reflexivity.
  - reflexivity.
Defined.

(** C7, as stated, fails: a file of the input directory that is not UTF-8
    does not make the build fail when the loader's pattern does not select
    it.  Here [kb/notes.md] is Latin-1 and the build succeeds. *)
Lemma C7_counterexample :
  ~ (forall (ext : External) (self : ConsultingRAG) (w : World) (files : list File),
       lookup (knowledge_base_path self) (directories w) = Some files ->
       (exists path bytes, In (path, bytes) files /\ decode_utf8 bytes = None) ->
       fst (build_knowledge_base self w) = inl EncodingError).
Proof.
  intros Hclaim.
  specialize (Hclaim demo (init "./knowledge_base") kb_world kb_files eq_refl).
  assert (Hbad : exists path bytes,
             In (path, bytes) kb_files /\ decode_utf8 (External := demo) bytes = None).
  { exists "kb/notes.md", latin1_bytes. split; [right; left; reflexivity | reflexivity]. }
  specialize (Hclaim Hbad). vm_compute in Hclaim. discriminate Hclaim.
Qed.

(** X1 on a retriever that was never built. *)
Lemma X1_witness :
  on_generate (ext := demo) (init "./knowledge_base") demo_fields empty_world
    = (inl (ValueError "Vector database not initialized."), empty_world).
Proof.
  apply (X1_handler_without_index (ext := demo)).
  - reflexivity.
  - reflexivity.
Defined.

(** X2 with a service that answers, one that is overloaded and one whose
    answer is empty. *)
Lemma X2_witness :
  (exists w',
     on_generate (ext := demo) demo_rag demo_fields empty_world = (inr tt, w') /\
     filter (fun ev => negb (is_search ev || is_generation ev)) (trace w')
       = [EvStMarkdown "STRATEGY BRIEF"]) /\
  (exists w',
     on_generate (ext := overloaded) (demo_rag_with _) demo_fields (empty_world_with _)
       = (inl (ServiceError "overloaded_error"), w') /\
     filter (fun ev => negb (is_search ev || is_generation ev)) (trace w') = []) /\
  (exists w',
     on_generate (ext := silent) (demo_rag_with _) demo_fields (empty_world_with _)
       = (inl IndexError, w') /\
     filter (fun ev => negb (is_search ev || is_generation ev)) (trace w') = []).
Proof.
  split; [| split]; eexists; split.
  - apply (proj1 (X2_handler_outcomes (ext := demo) demo_rag demo_db demo_fields
                    empty_world eq_refl eq_refl) "STRATEGY BRIEF" []).
    reflexivity.
  - reflexivity.
  - apply (proj1 (proj2 (X2_handler_outcomes (ext := overloaded) (demo_rag_with _)
                           (demo_db_with _) demo_fields (empty_world_with _) eq_refl eq_refl))).
    reflexivity.
  - reflexivity.
  - apply (proj2 (proj2 (X2_handler_outcomes (ext := silent) (demo_rag_with _)
                           (demo_db_with _) demo_fields (empty_world_with _) eq_refl eq_refl))).
    reflexivity.
  - reflexivity.
Defined.

(** X5 on a directory that holds a note and a hidden draft only. *)
Lemma X5_witness :
  fst (build_knowledge_base (ext := demo) (init "./knowledge_base") unread_world)
    = inl (ValueError "Expected IDs to be a non-empty list") /\
  fst (step (ext := demo) OpBuild (init "./knowledge_base") unread_world)
    = init "./knowledge_base".
Proof.
  apply (X5_build_without_text_file (ext := demo) (init "./knowledge_base")
           unread_world unread_files).
  - reflexivity.
  - intros path bytes Hin. simpl in Hin.
    destruct Hin as [Heq | [Heq | []]]; injection Heq as <- <-; reflexivity.
Defined.

(** X6 on the application started over a persisted index. *)
Lemma X6_witness :
  exists db,
    vectordb demo_rag = Some db /\
    get_relevant_frameworks (ext := demo) demo_rag "post-merger integration" 3
      empty_world =
      (inr (String.concat separator
              (map page_content
                 (map fst (nearest db "post-merger integration" 3)))),
       mkWorld (directories empty_world) (stores empty_world)
         (trace empty_world ++ [EvSimilaritySearch "post-merger integration" 3])).
Proof.
  apply (X6_load_rag_system_ready (ext := demo) demo_rag stored_world
           (mkWorld (ext := demo) [] [("./chroma_db", demo_index)]
              [EvOpen "./chroma_db"])).
  - reflexivity.
  - lia.
Defined.

(** X7: a retriever configured for another directory loads what was built. *)
Lemma X7_witness :
  exists other' w'',
    load_existing_db (ext := demo) (init "./elsewhere") built_world = (inr other', w'') /\
    vectordb other' = vectordb built_rag /\
    knowledge_base_path other' = "./elsewhere" /\
    forall query k w3,
      fst (get_relevant_frameworks other' query k w3)
        = fst (get_relevant_frameworks built_rag query k w3).
Proof.
  apply (X7_build_then_load (ext := demo) (init "./knowledge_base") built_rag
           (init "./elsewhere") kb_world built_world).
  reflexivity.
Defined.

(** X9 on the chunk retrieved for a short query. *)
Lemma X9_witness :
  In (mkDocument "Gap analysis" "kb/gap.txt")
     (map fst (persisted (ext := demo) "./chroma_db" kb_world)) \/
  exists path bytes text,
    In (path, bytes) kb_files /\
    matches_glob path = true /\
    is_visible path = true /\
    "kb/gap.txt" = path /\
    decode_utf8 (External := demo) bytes = Some text /\
    In "Gap analysis" (window_split 1000 200 text).
Proof.
  apply (X9_retrieved_chunks_come_from_files (ext := demo)
           (init "./knowledge_base") built_rag kb_world built_world kb_files
           "gap" 1
           [mkDocument "Gap analysis" "kb/gap.txt"]
           (mkDocument "Gap analysis" "kb/gap.txt")).
  - reflexivity.
  - reflexivity.
  - lia.
  - reflexivity.
  - left. reflexivity.
Defined.

(** X11 on a session with an unknown engagement type, and on one with the
    last option. *)
Lemma X11_witness :
  selectbox_index [("engagement_type", "Interim Management")] = None /\
  (4 < length engagement_options /\
   nth 4 engagement_options EmptyString = "M&A Integration").
Proof.
  split.
  - apply (proj2 (proj1 (X11_selectbox_index
                           [("engagement_type", "Interim Management")]))).
    exists "Interim Management". split; [reflexivity |].
    simpl. intros [H | [H | [H | [H | [H | []]]]]]; discriminate H.
  - apply (proj2 (X11_selectbox_index [("engagement_type", "M&A Integration")]) 4).
    reflexivity.
Defined.

(** X12 on the second scenario, over a session that held other values. *)
Lemma X12_witness :
  form_defaults
    (sidebar (String.eqb "Scaling Operations 3x") sample_scenarios
       [("industry", "Retail"); ("engagement_type", "M&A Integration")])
    = Some (mkFields
              "Operational Transformation"
              "E-commerce"
              "Company growing 300% year-over-year but operations team can't keep up. Current processes are manual and breaking down. Need to scale without proportional headcount increase."
              "Can't afford expensive enterprise software, need solutions in 6 months, team resistant to change") /\
  truthy
    "Company growing 300% year-over-year but operations team can't keep up. Current processes are manual and breaking down. Need to scale without proportional headcount increase."
    = true.
Proof.
  apply (X12_sample_scenario_fills_form "Scaling Operations 3x"
           (mkFields
              "Operational Transformation"
              "E-commerce"
              "Company growing 300% year-over-year but operations team can't keep up. Current processes are manual and breaking down. Need to scale without proportional headcount increase."
              "Can't afford expensive enterprise software, need solutions in 6 months, team resistant to change")
           (String.eqb "Scaling Operations 3x")).
  - right. left. reflexivity.
  - reflexivity.
  - intros other Hpressed. apply String.eqb_eq in Hpressed. now symmetry.
Defined.

(** X13 on the industry of the first sample scenario. *)
Lemma X13_witness :
  exists stem,
    download_file_name "Technology / SaaS" = "strategy_brief_" ++ stem ++ ".txt" /\
    String.length stem = 17 /\
    (forall c, In c (list_ascii_of_string stem) ->
       c <> " "%char /\ is_upper c = false) /\
    (In "/"%char (list_ascii_of_string "Technology / SaaS") ->
     In "/"%char (list_ascii_of_string stem)).
Proof.
  apply (X13_download_file_name "Technology / SaaS").
  reflexivity.
Defined.
